(** * Google-Workspace bridge: credential lifecycle and tool dispatch

    A shallow embedding of [src/auth/auth_manager.py], the capability
    modules under [src/tools/] and the line-protocol server
    [src/mcp_server.py], with the properties of the specification that
    concern them.

    Python values that travel through [json] are modelled by the type
    [json]; exceptions by a small state-and-exception monad over a
    [World] holding the token directory, the standard output, the clock
    and the history of calls made to the Google client libraries.  The
    libraries themselves (json, datetime, str, pathlib and the file
    system under it, google-auth, googleapiclient, google_auth_oauthlib,
    uuid) are external collaborators: they sit behind the [Library]
    interface, failures included, and every theorem holds for all its
    implementations. *)

From Stdlib Require Import ZArith List String Ascii Bool Lia.
From stdpp Require Import base strings gmap.

Import ListNotations.
Set Warnings "-register-all".
Local Open Scope string_scope.
Local Open Scope list_scope.

(* ===================================================================== *)
(** ** Python values *)
(* ===================================================================== *)

(** The values [json.loads] produces and [json.dumps] accepts.  A
    [dict] keeps its insertion order, as in Python; numbers are
    restricted to integers, floats play no role in the modelled paths. *)
Inductive json : Type :=
| JNull
| JBool (b : bool)
| JNum (n : Z)
| JStr (s : string)
| JArr (items : list json)
| JObj (fields : list (string * json)).

(** [bool(v)]: the truth value Python gives to [v] in [if v] and [not v]. *)
Definition truthy (v : json) : bool :=
  match v with
  | JNull => false
  | JBool b => b
  | JNum n => negb (n =? 0)%Z
  | JStr s => negb (String.eqb s "")
  | JArr items => match items with [] => false | _ => true end
  | JObj fields => match fields with [] => false | _ => true end
  end.

Definition type_name (v : json) : string :=
  match v with
  | JNull => "NoneType"
  | JBool _ => "bool"
  | JNum _ => "int"
  | JStr _ => "str"
  | JArr _ => "list"
  | JObj _ => "dict"
  end.

Fixpoint lookup_key (k : string) (fields : list (string * json)) : option json :=
  match fields with
  | [] => None
  | (k', v) :: rest => if String.eqb k k' then Some v else lookup_key k rest
  end.

(** ** Exceptions *)

Inductive exn_class : Type :=
| ValueError
| TypeError
| AttributeError
| FileNotFoundError
| OSError          (* any other failure of a file operation *)
| KeyError
| JSONDecodeError
| RecursionError
| LibraryError.   (* RefreshError, HttpError and whatever else a client library raises *)

(** An exception object: its class and [str(e)]. *)
Record exn : Type := Exn { exn_type : exn_class; exn_str : string }.

Inductive result (A : Type) : Type :=
| Ok (a : A)
| Raise (e : exn).
Arguments Ok {A} a.
Arguments Raise {A} e.

(** [d.get(k, default)].  On anything but a [dict] the attribute lookup
    itself fails. *)
Definition dict_get (d : json) (k : string) (default : json) : result json :=
  match d with
  | JObj fields =>
      Ok (match lookup_key k fields with Some v => v | None => default end)
  | _ =>
      Raise (Exn AttributeError
                 ("'" +:+ type_name d +:+ "' object has no attribute 'get'"))
  end.

(* ===================================================================== *)
(** ** Credentials *)
(* ===================================================================== *)

(** A [datetime.datetime]: naive, as google-auth keeps its expiry (UTC
    wall clock, in microseconds since the epoch), or aware, with the
    instant it denotes and its UTC offset in minutes. *)
Inductive datetime : Type :=
| Naive (t : Z)
| Aware (t : Z) (utcoffset : Z).

(** [google.oauth2.credentials.Credentials], reduced to the attributes
    the repository reads and writes.  The constructor stores whatever it
    is given, hence the [json] fields. *)
Module Credentials.
Record t : Type := Make {
    token : json;
    refresh_token : json;
    token_uri : json;
    client_id : json;
    client_secret : json;
    scopes : json;
    expiry : option datetime
  }.

Definition set_expiry (c : t) (e : option datetime) : t :=
    {| token := token c; refresh_token := refresh_token c;
       token_uri := token_uri c; client_id := client_id c;
       client_secret := client_secret c; scopes := scopes c;
       expiry := e |}.
End Credentials.

(** A [googleapiclient] resource: the API surface it talks to and the
    credentials it signs its requests with. *)
Record Handle : Type := MkHandle {
  h_service : string;
  h_version : string;
  h_credentials : Credentials.t
}.

(* ===================================================================== *)
(** ** The outside world *)
(* ===================================================================== *)

(** What a call does outside its own variables: the files it opens for
    reading and the calls that leave the process through a client
    library. *)
Inductive event : Type :=
| EvOpenRead (name : string)                          (* open(name, 'r') *)
| EvRefresh (c : Credentials.t)                       (* creds.refresh(Request()) *)
| EvBuild (service version : string) (c : Credentials.t)  (* build(service, version, credentials=c) *)
| EvFetchToken (code : string)                        (* flow.fetch_token(code=code) *)
| EvUserinfo (c : Credentials.t)                      (* service.userinfo().get().execute() *)
| EvExecute (tool args : json).                       (* the API requests of one tool operation *)

(** OAuth client configuration held by an [AuthManager]. *)
Record OAuthConfig : Type := MkOAuthConfig {
  cfg_client_id : string;
  cfg_client_secret : string;
  cfg_redirect_uri : string
}.

(** The state a call can observe and change. *)
Record World : Type := MkWorld {
  fs : gmap string string;     (* tokens_dir: file -> contents *)
  events : list event;         (* file reads and library calls so far, oldest first *)
  stdout : list string;        (* lines written to sys.stdout *)
  now : Z;                     (* utcnow(), microseconds since the epoch *)
  rng : nat                    (* uuid4 draws so far *)
}.

(** What the libraries and the operating system answer.  Every
    network-facing function receives the history so far, and every
    file operation the world it runs in, so two calls with the same
    arguments may be answered differently. *)
Class Library : Type := {
  (* json: [json.loads] may raise JSONDecodeError, or something else
     (RecursionError on deep nesting) *)
  json_dumps : json -> string;
  json_loads : string -> result json;
  (* str *)
  str_strip : string -> string;                (* s.strip() *)
  py_repr : json -> string;                    (* str() of a value that is not a string *)
  (* datetime *)
  isoformat : datetime -> string;
  fromisoformat : string -> option datetime;   (* [None]: ValueError *)
  (* pathlib and open, on names inside the token directory.  [path_key]
     is the file a name denotes, as a path relative to the directory;
     the other functions say whether the operation raises other than
     for a file that is simply not there. *)
  path_key : string -> string;
  exists_error : World -> string -> option exn;    (* Path.exists() *)
  open_error : World -> string -> option exn;      (* open(name, 'r') *)
  (* open(name, 'w') and the write: [Some (e, None)] raises and leaves
     the file alone, [Some (e, Some text)] raises having left [text] *)
  write_error : World -> string -> string -> option (exn * option string);
  unlink_error : World -> string -> option exn;    (* Path.unlink() *)
  glob_error : World -> option exn;                (* tokens_dir.glob(...) *)
  (* google.oauth2.credentials *)
  REFRESH_THRESHOLD : Z;
  refresh : list event -> Z -> Credentials.t -> result Credentials.t;
  (* googleapiclient.discovery.build: [Some e] when it raises *)
  build_error : list event -> string -> string -> Credentials.t -> option exn;
  (* the requests issued by one tool operation on its handles *)
  execute : list event -> json -> list Handle -> json -> result json;
  (* google_auth_oauthlib.flow.Flow *)
  authorization_url : OAuthConfig -> list string -> string -> result string;
  fetch_token : list event -> OAuthConfig -> list string -> string -> result Credentials.t;
  userinfo : list event -> Handle -> result json;
  (* uuid.uuid4, by the number of earlier draws *)
  uuid4 : nat -> string
}.

Definition set_fs (f : gmap string string -> gmap string string) (w : World) : World :=
  {| fs := f (fs w); events := events w; stdout := stdout w; now := now w; rng := rng w |}.
Definition log_event (e : event) (w : World) : World :=
  {| fs := fs w; events := events w ++ [e]; stdout := stdout w; now := now w; rng := rng w |}.
Definition write_stdout (line : string) (w : World) : World :=
  {| fs := fs w; events := events w; stdout := stdout w ++ [line]; now := now w; rng := rng w |}.
Definition draw (w : World) : World :=
  {| fs := fs w; events := events w; stdout := stdout w; now := now w; rng := S (rng w) |}.

(** ** Computations that may raise *)

Definition M (A : Type) : Type := World -> result A * World.

Definition ret {A} (a : A) : M A := fun w => (Ok a, w).
Definition raise {A} (e : exn) : M A := fun w => (Raise e, w).
Definition lift {A} (r : result A) : M A := fun w => (r, w).

Definition bind {A B} (m : M A) (k : A -> M B) : M B :=
  fun w =>
    match m w with
    | (Ok a, w') => k a w'
    | (Raise e, w') => (Raise e, w')
    end.

(** [try: body / except Exception as e: handler e].  Effects of [body]
    up to the point of the exception stay. *)
Definition try_except {A} (body : M A) (handler : exn -> M A) : M A :=
  fun w =>
    match body w with
    | (Ok a, w') => (Ok a, w')
    | (Raise e, w') => handler e w'
    end.

Notation "'let*' x ':=' m 'in' k" := (bind m (fun x => k))
  (at level 10, x name, m at level 100, k at level 200).
Notation "m '>>' k" := (bind m (fun _ => k))
  (at level 100, k at level 200, right associativity).

Definition get_world : M World := fun w => (Ok w, w).
Definition modify (f : World -> World) : M unit := fun w => (Ok tt, f w).

(** [print(line)] *)
Definition print (line : string) : M unit := modify (write_stdout (line +:+ "
")).

(** Files of the token directory. *)
Definition no_such_file (name : string) : exn :=
  Exn FileNotFoundError ("[Errno 2] No such file or directory: '" +:+ name +:+ "'").

(** [Path(name).exists()] *)
Definition file_exists `{Library} (name : string) : M bool :=
  fun w =>
    match exists_error w name with
    | Some e => (Raise e, w)
    | None => (Ok (bool_decide (is_Some (fs w !! path_key name))), w)
    end.

(** [open(name, 'r')] and the read *)
Definition read_file `{Library} (name : string) : M string :=
  fun w =>
    (match open_error w name with
     | Some e => Raise e
     | None =>
         match fs w !! path_key name with
         | Some text => Ok text
         | None => Raise (no_such_file name)
         end
     end,
     log_event (EvOpenRead name) w).

(** [open(name, 'w')] and the write *)
Definition write_file `{Library} (name text : string) : M unit :=
  fun w =>
    match write_error w name text with
    | None => (Ok tt, set_fs (insert (path_key name) text) w)
    | Some (e, None) => (Raise e, w)
    | Some (e, Some partial) => (Raise e, set_fs (insert (path_key name) partial) w)
    end.

(** [Path(name).unlink()] *)
Definition unlink `{Library} (name : string) : M unit :=
  fun w =>
    match unlink_error w name with
    | Some e => (Raise e, w)
    | None =>
        match fs w !! path_key name with
        | Some _ => (Ok tt, set_fs (delete (path_key name)) w)
        | None => (Raise (no_such_file name), w)
        end
    end.

(** [f'{v}']: a string formats as itself, anything else as its repr. *)
Definition py_str `{Library} (v : json) : string :=
  match v with
  | JStr s => s
  | _ => py_repr v
  end.

(** [json.load(f)] on the text of a file, [json.loads(text)] on a line. *)
Definition json_load `{Library} (text : string) : result json := json_loads text.

(* ===================================================================== *)
(** ** [auth/auth_manager.py] *)
(* ===================================================================== *)

Module AuthManager.
Section WithLibrary.
Context `{Lib : Library}.

(** [self.scopes] *)
Definition scopes : list string :=
    [ "openid";
      "https://www.googleapis.com/auth/gmail.readonly";
      "https://www.googleapis.com/auth/gmail.send";
      "https://www.googleapis.com/auth/gmail.modify";
      "https://www.googleapis.com/auth/gmail.labels";
      "https://www.googleapis.com/auth/gmail.settings.basic";
      "https://www.googleapis.com/auth/calendar";
      "https://www.googleapis.com/auth/calendar.events";
      "https://www.googleapis.com/auth/drive";
      "https://www.googleapis.com/auth/drive.file";
      "https://www.googleapis.com/auth/documents";
      "https://www.googleapis.com/auth/documents.readonly";
      "https://www.googleapis.com/auth/spreadsheets";
      "https://www.googleapis.com/auth/contacts.readonly";
      "https://www.googleapis.com/auth/userinfo.email";
      "https://www.googleapis.com/auth/userinfo.profile" ].

(** [__init__]: the client id and secret come from the environment
    ([None] when unset); the redirect URI has a default. *)
Definition init (client_id client_secret redirect_uri : option string)
    : result OAuthConfig :=
    match client_id, client_secret with
    | Some id, Some secret =>
        if String.eqb id "" || String.eqb secret ""
        then Raise (Exn ValueError
          "GOOGLE_CLIENT_ID and GOOGLE_CLIENT_SECRET environment variables are required")
        else Ok {| cfg_client_id := id;
                   cfg_client_secret := secret;
                   cfg_redirect_uri :=
                     match redirect_uri with
                     | Some uri => uri
                     | None => "http://localhost:8080/oauth/callback"
                     end |}
    | _, _ =>
        Raise (Exn ValueError
          "GOOGLE_CLIENT_ID and GOOGLE_CLIENT_SECRET environment variables are required")
    end.

(** [self.tokens_dir / f'{email}.json'], as a name inside the token
    directory. *)
Definition token_file (email : string) : string := email +:+ ".json".

(** The [token_data] dictionary of [_save_tokens]. *)
Definition token_data (creds : Credentials.t) : json :=
    JObj [ ("token", Credentials.token creds);
           ("refresh_token", Credentials.refresh_token creds);
           ("token_uri", Credentials.token_uri creds);
           ("client_id", Credentials.client_id creds);
           ("client_secret", Credentials.client_secret creds);
           ("scopes", Credentials.scopes creds);
           ("expiry", match Credentials.expiry creds with
                      | Some d => JStr (isoformat d)
                      | None => JNull
                      end) ].

Definition _save_tokens (email : string) (creds : Credentials.t) : M unit :=
    write_file (token_file email) (json_dumps (token_data creds)).

(** [datetime.fromisoformat(v)] on a value read from the file. *)
Definition parse_expiry (v : json) : result datetime :=
    match v with
    | JStr s =>
        match fromisoformat s with
        | Some d => Ok d
        | None => Raise (Exn ValueError ("Invalid isoformat string: '" +:+ s +:+ "'"))
        end
    | _ => Raise (Exn TypeError "fromisoformat: argument must be str")
    end.

Definition _load_tokens (email : string) : M (option Credentials.t) :=
    let* present := file_exists (token_file email) in
    if negb present then ret None
    else
      try_except
        (let* text := read_file (token_file email) in
         let* token_data := lift (json_load text) in
         let* token := lift (dict_get token_data "token" JNull) in
         let* refresh_token := lift (dict_get token_data "refresh_token" JNull) in
         let* token_uri := lift (dict_get token_data "token_uri" JNull) in
         let* client_id := lift (dict_get token_data "client_id" JNull) in
         let* client_secret := lift (dict_get token_data "client_secret" JNull) in
         let* scopes := lift (dict_get token_data "scopes" JNull) in
         let creds := Credentials.Make token refresh_token token_uri
                                       client_id client_secret scopes None in
         let* expiry := lift (dict_get token_data "expiry" JNull) in
         if truthy expiry then
           let* d := lift (parse_expiry expiry) in
           ret (Some (Credentials.set_expiry creds (Some d)))
         else ret (Some creds))
        (fun e =>
           print ("Failed to load tokens: " +:+ exn_str e) >> ret None).

(** The [expired] property of google-auth credentials at time [t]:
    [utcnow() >= expiry - REFRESH_THRESHOLD], a comparison that raises
    when the expiry is aware. *)
Definition expired (t : Z) (creds : Credentials.t) : result bool :=
    match Credentials.expiry creds with
    | None => Ok false
    | Some (Naive d) => Ok (d - REFRESH_THRESHOLD <=? t)%Z
    | Some (Aware _ _) =>
        Raise (Exn TypeError "can't compare offset-naive and offset-aware datetimes")
    end.

(** [creds.refresh(Request())] *)
Definition do_refresh (creds : Credentials.t) : M Credentials.t :=
    fun w => (refresh (events w) (now w) creds, log_event (EvRefresh creds) w).

(** [build(service_name, version, credentials=creds)] *)
Definition build (service_name version : string) (creds : Credentials.t) : M Handle :=
    fun w =>
      (match build_error (events w) service_name version creds with
       | Some e => Raise e
       | None => Ok (MkHandle service_name version creds)
       end,
       log_event (EvBuild service_name version creds) w).

Definition get_authenticated_client (email service_name version : string)
    : M (option Handle) :=
    try_except
      (let* creds := _load_tokens email in
       match creds with
       | None => ret None
       | Some creds =>
           let* w := get_world in
           let* is_expired := lift (expired (now w) creds) in
           let* creds :=
             (if is_expired && truthy (Credentials.refresh_token creds)
              then
                let* creds := do_refresh creds in
                _save_tokens email creds >> ret creds
              else ret creds) in
           let* service := build service_name version creds in
           ret (Some service)
       end)
      (fun e =>
         print ("Failed to get authenticated client: " +:+ exn_str e) >> ret None).

(** [Path.stem] of a name matched by [*.json]. *)
Definition stem (name : string) : string :=
    if String.eqb name ".json" then name
    else String.substring 0 (String.length name - 5) name.

Definition is_json_file (name : string) : bool :=
    (5 <=? String.length name)%nat
    && String.eqb (String.substring (String.length name - 5) 5 name) ".json".

(** A file directly inside the directory, not below it. *)
Definition is_child (name : string) : bool :=
    match String.index 0 "/" name with
    | Some _ => false
    | None => true
    end.

(** [self.tokens_dir.glob('*.json')], in the order of the map's key
    list. *)
Definition glob_json : M (list string) :=
    fun w =>
      match glob_error w with
      | Some e => (Raise e, w)
      | None =>
          (Ok (filter (fun name => Is_true (is_json_file name && is_child name))
                      (map fst (map_to_list (fs w)))), w)
      end.

Definition list_accounts : M (list json) :=
    try_except
      (let* token_files := glob_json in
       ret (map (fun token_file => JObj [("email", JStr (stem token_file));
                                         ("authenticated", JBool true)])
                token_files))
      (fun e =>
         print ("Failed to list accounts: " +:+ exn_str e) >> ret []).

Definition remove_account (email : string) : M bool :=
    try_except
      (let* present := file_exists (token_file email) in
       (if present then unlink (token_file email) else ret tt) >>
       ret true)
      (fun e =>
         print ("Failed to remove account: " +:+ exn_str e) >> ret false).

Definition is_authenticated (email : string) : M bool :=
    file_exists (token_file email).

Variable self : OAuthConfig.

Definition get_auth_url (email : json) : M json :=
    try_except
      (let* w := get_world in
       let state := uuid4 (rng w) in
       modify draw >>
       let* auth_url := lift (authorization_url self scopes state) in
       ret (JObj [("success", JBool true);
                  ("authUrl", JStr auth_url);
                  ("state", JStr state)]))
      (fun e =>
         ret (JObj [("success", JBool false); ("error", JStr (exn_str e))])).

Definition do_fetch_token (code : string) : M Credentials.t :=
    fun w => (fetch_token (events w) self scopes code, log_event (EvFetchToken code) w).

Definition do_userinfo (service : Handle) : M json :=
    fun w => (userinfo (events w) service,
              log_event (EvUserinfo (h_credentials service)) w).

Definition handle_oauth_callback (code state : string) : M json :=
    try_except
      (let* creds := do_fetch_token code in
       let* service := build "oauth2" "v2" creds in
       let* user_info := do_userinfo service in
       let* email := lift (dict_get user_info "email" JNull) in
       if negb (truthy email)
       then raise (Exn ValueError "Could not retrieve user email")
       else
         _save_tokens (py_str email) creds >>
         ret (JObj [("success", JBool true); ("email", email)]))
      (fun e =>
         ret (JObj [("success", JBool false); ("error", JStr (exn_str e))])).
End WithLibrary.
End AuthManager.

(* ===================================================================== *)
(** ** [tools/]: the capability modules *)
(* ===================================================================== *)

(** The one-entry [content] list every tool returns. *)
Definition text_result (text : string) : json :=
  JObj [("content", JArr [JObj [("type", JStr "text"); ("text", JStr text)]])].

(** [name in [...]] for a list of string literals. *)
Definition name_in (name : json) (names : list string) : bool :=
  match name with
  | JStr s => existsb (String.eqb s) names
  | _ => false
  end.

(** [d[k]] *)
Definition dict_item (d : json) (k : string) : result json :=
  match d with
  | JObj fields =>
      match lookup_key k fields with
      | Some v => Ok v
      | None => Raise (Exn KeyError ("'" +:+ k +:+ "'"))
      end
  | _ => Raise (Exn TypeError ("'" +:+ type_name d +:+ "' object is not subscriptable"))
  end.

Definition LF : string := String (ascii_of_nat 10) EmptyString.

(** [descriptor["name"]], [None] where there is none. *)
Definition descriptor_name (descriptor : json) : json :=
  match dict_get descriptor "name" JNull with
  | Ok name => name
  | Raise _ => JNull
  end.

(** [tools/base_tools.py]: the interface the dispatcher relies on. *)
Module BaseTools.
Record t : Type := Make {
    get_tools : list json;
    has_tool : json -> bool;
    handle_tool : json -> json -> M json
  }.
End BaseTools.

(** The private [_operation(service, args)] methods of a module: the
    requests they send and the text they build from the answers are the
    library's business; they return a result or raise. *)
Definition do_execute `{Library} (name : json) (services : list Handle) (args : json)
  : M json :=
  fun w => (execute (events w) name services args, log_event (EvExecute name args) w).

Module AccountTools.
Section WithLibrary.
Context `{Lib : Library}.
Variable auth_manager : OAuthConfig.

Definition get_tools : list json :=
    [
      JObj [
        ("name", JStr "list_workspace_accounts");
        ("description", JStr "List all configured Google Workspace accounts and their authentication status");
        ("inputSchema", JObj [ ("type", JStr "object"); ("properties", JObj [])])];
      JObj [
        ("name", JStr "authenticate_workspace_account");
        ("description", JStr "Add and authenticate a new Google Workspace account");
        ("inputSchema", JObj [
          ("type", JStr "object");
          ("properties", JObj [
            ("email", JObj [
              ("type", JStr "string");
              ("description", JStr "Email address of the account to authenticate (optional, will be determined from OAuth)")])])])];
      JObj [
        ("name", JStr "remove_workspace_account");
        ("description", JStr "Remove a Google Workspace account and its associated tokens");
        ("inputSchema", JObj [
          ("type", JStr "object");
          ("properties", JObj [
            ("email", JObj [
              ("type", JStr "string");
              ("description", JStr "Email address of the account to remove")])]);
          ("required", JArr [JStr "email"])])] ].

Definition tool_names : list string :=
    [ "list_workspace_accounts";
      "authenticate_workspace_account";
      "remove_workspace_account" ].

Definition has_tool (name : json) : bool := name_in name tool_names.

Definition _list_accounts : M json :=
    try_except
      (let* accounts := AuthManager.list_accounts in
       ret (text_result (py_str (JArr accounts))))
      (fun e => ret (text_result ("Error: " +:+ exn_str e))).

Definition _authenticate_account (args : json) : M json :=
    try_except
      (let* email := lift (dict_get args "email" JNull) in
       let* result := AuthManager.get_auth_url auth_manager email in
       let* success := lift (dict_item result "success") in
       if negb (truthy success) then
         let* error := lift (dict_get result "error" JNull) in
         ret (text_result ("Failed to generate auth URL: " +:+ py_str error))
       else
         let* auth_url := lift (dict_item result "authUrl") in
         ret (text_result
                ("Please visit this URL to authenticate:" +:+ LF +:+ LF
                 +:+ py_str auth_url +:+ LF +:+ LF
                 +:+ "After clicking 'Allow' on the Google authorization page, the authentication will complete automatically.")))
      (fun e => ret (text_result ("Error: " +:+ exn_str e))).

Definition _remove_account (args : json) : M json :=
    try_except
      (let* email := lift (dict_get args "email" JNull) in
       if negb (truthy email) then ret (text_result "Error: email is required")
       else
         let* success := AuthManager.remove_account (py_str email) in
         if success
         then ret (text_result ("Successfully removed account: " +:+ py_str email))
         else ret (text_result ("Failed to remove account: " +:+ py_str email)))
      (fun e => ret (text_result ("Error: " +:+ exn_str e))).

Definition handle_tool (name args : json) : M json :=
    if name_in name ["list_workspace_accounts"] then _list_accounts
    else if name_in name ["authenticate_workspace_account"] then _authenticate_account args
    else if name_in name ["remove_workspace_account"] then _remove_account args
    else raise (Exn ValueError ("Unknown tool: " +:+ py_str name)).

Definition tools : BaseTools.t := BaseTools.Make get_tools has_tool handle_tool.
End WithLibrary.
End AccountTools.

Module GmailTools.
Section WithLibrary.
Context `{Lib : Library}.

Definition get_tools : list json :=
    [
      JObj [
        ("name", JStr "search_workspace_emails");
        ("description", JStr "Search emails in Gmail with advanced filtering options");
        ("inputSchema", JObj [
          ("type", JStr "object");
          ("properties", JObj [
            ("email", JObj [
              ("type", JStr "string");
              ("description", JStr "Email address of the account to search")]);
            ("query", JObj [
              ("type", JStr "string");
              ("description", JStr "Gmail search query (e.g., 'from:example@gmail.com', 'subject:meeting', 'has:attachment')")]);
            ("maxResults", JObj [
              ("type", JStr "number");
              ("description", JStr "Maximum number of emails to return (default: 10)")]);
            ("includeSpamTrash", JObj [
              ("type", JStr "boolean");
              ("description", JStr "Include emails from spam and trash folders")])]);
          ("required", JArr [JStr "email"])])];
      JObj [
        ("name", JStr "send_workspace_email");
        ("description", JStr "Send an email through Gmail");
        ("inputSchema", JObj [
          ("type", JStr "object");
          ("properties", JObj [
            ("email", JObj [
              ("type", JStr "string");
              ("description", JStr "Email address of the account to send from")]);
            ("to", JObj [ ("type", JStr "string"); ("description", JStr "Recipient email address")]);
            ("subject", JObj [ ("type", JStr "string"); ("description", JStr "Email subject")]);
            ("body", JObj [ ("type", JStr "string"); ("description", JStr "Email body (HTML or plain text)")]);
            ("cc", JObj [
              ("type", JStr "string");
              ("description", JStr "CC recipient email addresses (comma-separated)")]);
            ("bcc", JObj [
              ("type", JStr "string");
              ("description", JStr "BCC recipient email addresses (comma-separated)")])]);
          ("required", JArr [JStr "email"; JStr "to"; JStr "subject"; JStr "body"])])];
      JObj [
        ("name", JStr "manage_workspace_draft");
        ("description", JStr "Create, update, or manage email drafts");
        ("inputSchema", JObj [
          ("type", JStr "object");
          ("properties", JObj [
            ("email", JObj [ ("type", JStr "string"); ("description", JStr "Email address of the account")]);
            ("action", JObj [
              ("type", JStr "string");
              ("enum", JArr [JStr "create"; JStr "update"; JStr "list"; JStr "get"; JStr "delete"]);
              ("description", JStr "Action to perform on drafts")]);
            ("draftId", JObj [
              ("type", JStr "string");
              ("description", JStr "Draft ID (required for update, get, delete)")]);
            ("to", JObj [
              ("type", JStr "string");
              ("description", JStr "Recipient email address (for create/update)")]);
            ("subject", JObj [
              ("type", JStr "string");
              ("description", JStr "Email subject (for create/update)")]);
            ("body", JObj [ ("type", JStr "string"); ("description", JStr "Email body (for create/update)")])]);
          ("required", JArr [JStr "email"; JStr "action"])])];
      JObj [
        ("name", JStr "manage_workspace_label");
        ("description", JStr "Create and manage Gmail labels");
        ("inputSchema", JObj [
          ("type", JStr "object");
          ("properties", JObj [
            ("email", JObj [ ("type", JStr "string"); ("description", JStr "Email address of the account")]);
            ("action", JObj [
              ("type", JStr "string");
              ("enum", JArr [JStr "create"; JStr "list"; JStr "get"; JStr "delete"]);
              ("description", JStr "Action to perform on labels")]);
            ("labelId", JObj [
              ("type", JStr "string");
              ("description", JStr "Label ID (required for get, delete)")]);
            ("name", JObj [
              ("type", JStr "string");
              ("description", JStr "Label name (required for create)")]);
            ("labelListVisibility", JObj [
              ("type", JStr "string");
              ("enum", JArr [JStr "labelShow"; JStr "labelHide"; JStr "labelShowIfUnread"]);
              ("description", JStr "Label list visibility")]);
            ("messageListVisibility", JObj [
              ("type", JStr "string");
              ("enum", JArr [JStr "show"; JStr "hide"]);
              ("description", JStr "Message list visibility")])]);
          ("required", JArr [JStr "email"; JStr "action"])])];
      JObj [
        ("name", JStr "manage_workspace_label_assignment");
        ("description", JStr "Apply or remove labels from messages");
        ("inputSchema", JObj [
          ("type", JStr "object");
          ("properties", JObj [
            ("email", JObj [ ("type", JStr "string"); ("description", JStr "Email address of the account")]);
            ("messageId", JObj [ ("type", JStr "string"); ("description", JStr "Message ID to modify")]);
            ("addLabelIds", JObj [
              ("type", JStr "array");
              ("items", JObj [ ("type", JStr "string")]);
              ("description", JStr "Label IDs to add to the message")]);
            ("removeLabelIds", JObj [
              ("type", JStr "array");
              ("items", JObj [ ("type", JStr "string")]);
              ("description", JStr "Label IDs to remove from the message")])]);
          ("required", JArr [JStr "email"; JStr "messageId"])])];
      JObj [
        ("name", JStr "get_workspace_gmail_settings");
        ("description", JStr "Get Gmail account settings and configuration");
        ("inputSchema", JObj [
          ("type", JStr "object");
          ("properties", JObj [
            ("email", JObj [ ("type", JStr "string"); ("description", JStr "Email address of the account")])]);
          ("required", JArr [JStr "email"])])] ].

Definition tool_names : list string :=
    [ "search_workspace_emails";
      "send_workspace_email";
      "manage_workspace_draft";
      "manage_workspace_label";
      "manage_workspace_label_assignment";
      "get_workspace_gmail_settings" ].

Definition has_tool (name : json) : bool := name_in name tool_names.

Definition handle_tool (name args : json) : M json :=
    let* email := lift (dict_get args "email" JNull) in
    if negb (truthy email) then ret (text_result "Error: Email is required")
    else
      let* service := AuthManager.get_authenticated_client (py_str email) "gmail" "v1" in
      match service with
      | None => ret (text_result "Error: Account not authenticated")
      | Some service =>
          try_except
            (if name_in name tool_names then do_execute name [service] args
             else ret (text_result ("Error: Unknown tool: " +:+ py_str name)))
            (fun e => ret (text_result ("Error: " +:+ exn_str e)))
      end.

Definition tools : BaseTools.t := BaseTools.Make get_tools has_tool handle_tool.
End WithLibrary.
End GmailTools.

Module CalendarTools.
Section WithLibrary.
Context `{Lib : Library}.

Definition get_tools : list json :=
    [
      JObj [
        ("name", JStr "list_workspace_calendar_events");
        ("description", JStr "List and search calendar events");
        ("inputSchema", JObj [
          ("type", JStr "object");
          ("properties", JObj [
            ("email", JObj [ ("type", JStr "string"); ("description", JStr "Email address of the account")]);
            ("calendarId", JObj [ ("type", JStr "string"); ("description", JStr "Calendar ID (default: primary)")]);
            ("timeMin", JObj [
              ("type", JStr "string");
              ("description", JStr "Lower bound for event start times (RFC3339 timestamp)")]);
            ("timeMax", JObj [
              ("type", JStr "string");
              ("description", JStr "Upper bound for event start times (RFC3339 timestamp)")]);
            ("maxResults", JObj [
              ("type", JStr "number");
              ("description", JStr "Maximum number of events to return (default: 10)")]);
            ("singleEvents", JObj [
              ("type", JStr "boolean");
              ("description", JStr "Whether to expand recurring events into instances")]);
            ("orderBy", JObj [
              ("type", JStr "string");
              ("enum", JArr [JStr "startTime"; JStr "updated"]);
              ("description", JStr "Order of events returned")]);
            ("q", JObj [ ("type", JStr "string"); ("description", JStr "Free text search terms")])]);
          ("required", JArr [JStr "email"])])];
      JObj [
        ("name", JStr "get_workspace_calendar_event");
        ("description", JStr "Get detailed information about a specific calendar event");
        ("inputSchema", JObj [
          ("type", JStr "object");
          ("properties", JObj [
            ("email", JObj [ ("type", JStr "string")]);
            ("calendarId", JObj [ ("type", JStr "string"); ("description", JStr "Calendar ID (default: primary)")]);
            ("eventId", JObj [ ("type", JStr "string"); ("description", JStr "Event ID")])]);
          ("required", JArr [JStr "email"; JStr "eventId"])])];
      JObj [
        ("name", JStr "create_workspace_calendar_event");
        ("description", JStr "Create a new calendar event");
        ("inputSchema", JObj [
          ("type", JStr "object");
          ("properties", JObj [
            ("email", JObj [ ("type", JStr "string")]);
            ("calendarId", JObj [ ("type", JStr "string"); ("description", JStr "Calendar ID (default: primary)")]);
            ("summary", JObj [ ("type", JStr "string"); ("description", JStr "Event title/summary")]);
            ("description", JObj [ ("type", JStr "string"); ("description", JStr "Event description")]);
            ("start", JObj [
              ("type", JStr "object");
              ("description", JStr "Start time with dateTime and timeZone")]);
            ("end", JObj [
              ("type", JStr "object");
              ("description", JStr "End time with dateTime and timeZone")]);
            ("attendees", JObj [ ("type", JStr "array"); ("description", JStr "List of attendees")]);
            ("location", JObj [ ("type", JStr "string"); ("description", JStr "Event location")]);
            ("reminders", JObj [ ("type", JStr "object"); ("description", JStr "Event reminders")])]);
          ("required", JArr [JStr "email"; JStr "summary"; JStr "start"; JStr "end"])])];
      JObj [
        ("name", JStr "manage_workspace_calendar_event");
        ("description", JStr "Update calendar events and respond to invitations");
        ("inputSchema", JObj [
          ("type", JStr "object");
          ("properties", JObj [
            ("email", JObj [ ("type", JStr "string")]);
            ("calendarId", JObj [ ("type", JStr "string")]);
            ("eventId", JObj [ ("type", JStr "string")]);
            ("action", JObj [
              ("type", JStr "string");
              ("enum", JArr [JStr "update"; JStr "respond"]);
              ("description", JStr "Action to perform")]);
            ("responseStatus", JObj [
              ("type", JStr "string");
              ("enum", JArr [JStr "accepted"; JStr "declined"; JStr "tentative"]);
              ("description", JStr "Response status (for respond action)")]);
            ("summary", JObj [ ("type", JStr "string")]);
            ("description", JObj [ ("type", JStr "string")]);
            ("start", JObj [ ("type", JStr "object")]);
            ("end", JObj [ ("type", JStr "object")]);
            ("attendees", JObj [ ("type", JStr "array")]);
            ("location", JObj [ ("type", JStr "string")])]);
          ("required", JArr [JStr "email"; JStr "eventId"; JStr "action"])])];
      JObj [
        ("name", JStr "delete_workspace_calendar_event");
        ("description", JStr "Delete calendar events");
        ("inputSchema", JObj [
          ("type", JStr "object");
          ("properties", JObj [
            ("email", JObj [ ("type", JStr "string")]);
            ("calendarId", JObj [ ("type", JStr "string")]);
            ("eventId", JObj [ ("type", JStr "string")]);
            ("sendUpdates", JObj [
              ("type", JStr "string");
              ("enum", JArr [JStr "all"; JStr "externalOnly"; JStr "none"]);
              ("description", JStr "Whether to send notifications")])]);
          ("required", JArr [JStr "email"; JStr "eventId"])])] ].

Definition tool_names : list string :=
    [ "list_workspace_calendar_events";
      "get_workspace_calendar_event";
      "create_workspace_calendar_event";
      "manage_workspace_calendar_event";
      "delete_workspace_calendar_event" ].

Definition has_tool (name : json) : bool := name_in name tool_names.

Definition handle_tool (name args : json) : M json :=
    let* email := lift (dict_get args "email" JNull) in
    if negb (truthy email) then ret (text_result "Error: Email is required")
    else
      let* service := AuthManager.get_authenticated_client (py_str email) "calendar" "v3" in
      match service with
      | None => ret (text_result "Error: Account not authenticated")
      | Some service =>
          try_except
            (if name_in name tool_names then do_execute name [service] args
             else ret (text_result ("Error: Unknown tool: " +:+ py_str name)))
            (fun e => ret (text_result ("Error: " +:+ exn_str e)))
      end.

Definition tools : BaseTools.t := BaseTools.Make get_tools has_tool handle_tool.
End WithLibrary.
End CalendarTools.

Module DriveTools.
Section WithLibrary.
Context `{Lib : Library}.

Definition get_tools : list json :=
    [
      JObj [
        ("name", JStr "list_drive_files");
        ("description", JStr "List files in Google Drive with filtering and pagination");
        ("inputSchema", JObj [
          ("type", JStr "object");
          ("properties", JObj [
            ("email", JObj [ ("type", JStr "string"); ("description", JStr "Email address of the account")]);
            ("pageSize", JObj [
              ("type", JStr "number");
              ("description", JStr "Number of files to return (default: 10)")]);
            ("pageToken", JObj [ ("type", JStr "string"); ("description", JStr "Token for pagination")]);
            ("q", JObj [
              ("type", JStr "string");
              ("description", JStr "Query string for filtering files")]);
            ("orderBy", JObj [
              ("type", JStr "string");
              ("description", JStr "Order by field (e.g., 'name', 'modifiedTime', 'createdTime')")]);
            ("fields", JObj [ ("type", JStr "string"); ("description", JStr "Fields to include in response")])]);
          ("required", JArr [JStr "email"])])];
      JObj [
        ("name", JStr "search_drive_files");
        ("description", JStr "Full-text search across Drive content");
        ("inputSchema", JObj [
          ("type", JStr "object");
          ("properties", JObj [
            ("email", JObj [ ("type", JStr "string"); ("description", JStr "Email address of the account")]);
            ("query", JObj [ ("type", JStr "string"); ("description", JStr "Search query")]);
            ("pageSize", JObj [
              ("type", JStr "number");
              ("description", JStr "Number of results to return (default: 10)")]);
            ("pageToken", JObj [ ("type", JStr "string"); ("description", JStr "Token for pagination")])]);
          ("required", JArr [JStr "email"; JStr "query"])])];
      JObj [
        ("name", JStr "upload_drive_file");
        ("description", JStr "Upload files to Google Drive with metadata and permissions");
        ("inputSchema", JObj [
          ("type", JStr "object");
          ("properties", JObj [
            ("email", JObj [ ("type", JStr "string"); ("description", JStr "Email address of the account")]);
            ("filePath", JObj [ ("type", JStr "string"); ("description", JStr "Local file path to upload")]);
            ("name", JObj [
              ("type", JStr "string");
              ("description", JStr "Name for the file in Drive (optional)")]);
            ("parents", JObj [
              ("type", JStr "array");
              ("items", JObj [ ("type", JStr "string")]);
              ("description", JStr "Parent folder IDs")]);
            ("description", JObj [ ("type", JStr "string"); ("description", JStr "File description")]);
            ("mimeType", JObj [ ("type", JStr "string"); ("description", JStr "MIME type of the file")])]);
          ("required", JArr [JStr "email"; JStr "filePath"])])];
      JObj [
        ("name", JStr "download_drive_file");
        ("description", JStr "Download files from Google Drive with format conversion");
        ("inputSchema", JObj [
          ("type", JStr "object");
          ("properties", JObj [
            ("email", JObj [ ("type", JStr "string"); ("description", JStr "Email address of the account")]);
            ("fileId", JObj [ ("type", JStr "string"); ("description", JStr "Google Drive file ID")]);
            ("mimeType", JObj [
              ("type", JStr "string");
              ("description", JStr "MIME type for export (for Google Docs/Sheets/Slides)")]);
            ("localPath", JObj [
              ("type", JStr "string");
              ("description", JStr "Local path to save the file (optional)")])]);
          ("required", JArr [JStr "email"; JStr "fileId"])])];
      JObj [
        ("name", JStr "delete_drive_file");
        ("description", JStr "Delete files and folders from Google Drive");
        ("inputSchema", JObj [
          ("type", JStr "object");
          ("properties", JObj [
            ("email", JObj [ ("type", JStr "string"); ("description", JStr "Email address of the account")]);
            ("fileId", JObj [ ("type", JStr "string"); ("description", JStr "Google Drive file ID")])]);
          ("required", JArr [JStr "email"; JStr "fileId"])])];
      JObj [
        ("name", JStr "create_drive_folder");
        ("description", JStr "Create organized folder structures in Google Drive");
        ("inputSchema", JObj [
          ("type", JStr "object");
          ("properties", JObj [
            ("email", JObj [ ("type", JStr "string"); ("description", JStr "Email address of the account")]);
            ("name", JObj [ ("type", JStr "string"); ("description", JStr "Folder name")]);
            ("parents", JObj [
              ("type", JStr "array");
              ("items", JObj [ ("type", JStr "string")]);
              ("description", JStr "Parent folder IDs")]);
            ("description", JObj [ ("type", JStr "string"); ("description", JStr "Folder description")])]);
          ("required", JArr [JStr "email"; JStr "name"])])];
      JObj [
        ("name", JStr "update_drive_permissions");
        ("description", JStr "Manage file sharing and permissions in Google Drive");
        ("inputSchema", JObj [
          ("type", JStr "object");
          ("properties", JObj [
            ("email", JObj [ ("type", JStr "string"); ("description", JStr "Email address of the account")]);
            ("fileId", JObj [ ("type", JStr "string"); ("description", JStr "Google Drive file ID")]);
            ("action", JObj [
              ("type", JStr "string");
              ("enum", JArr [JStr "add"; JStr "remove"; JStr "update"; JStr "list"]);
              ("description", JStr "Action to perform on permissions")]);
            ("permissionId", JObj [
              ("type", JStr "string");
              ("description", JStr "Permission ID (for remove/update actions)")]);
            ("role", JObj [
              ("type", JStr "string");
              ("enum", JArr [JStr "owner"; JStr "organizer"; JStr "fileOrganizer"; JStr "writer"; JStr "commenter"; JStr "reader"]);
              ("description", JStr "Permission role")]);
            ("type", JObj [
              ("type", JStr "string");
              ("enum", JArr [JStr "user"; JStr "group"; JStr "domain"; JStr "anyone"]);
              ("description", JStr "Permission type")]);
            ("emailAddress", JObj [
              ("type", JStr "string");
              ("description", JStr "Email address for user/group permissions")]);
            ("domain", JObj [ ("type", JStr "string"); ("description", JStr "Domain for domain permissions")]);
            ("allowFileDiscovery", JObj [
              ("type", JStr "boolean");
              ("description", JStr "Whether to allow file discovery")])]);
          ("required", JArr [JStr "email"; JStr "fileId"; JStr "action"])])] ].

Definition tool_names : list string :=
    [ "list_drive_files";
      "search_drive_files";
      "upload_drive_file";
      "download_drive_file";
      "delete_drive_file";
      "create_drive_folder";
      "update_drive_permissions" ].

Definition has_tool (name : json) : bool := name_in name tool_names.

Definition handle_tool (name args : json) : M json :=
    let* email := lift (dict_get args "email" JNull) in
    if negb (truthy email) then ret (text_result "Error: Email is required")
    else
      let* service := AuthManager.get_authenticated_client (py_str email) "drive" "v3" in
      match service with
      | None => ret (text_result "Error: Account not authenticated")
      | Some service =>
          try_except
            (if name_in name tool_names then do_execute name [service] args
             else ret (text_result ("Error: Unknown tool: " +:+ py_str name)))
            (fun e => ret (text_result ("Error: " +:+ exn_str e)))
      end.

Definition tools : BaseTools.t := BaseTools.Make get_tools has_tool handle_tool.
End WithLibrary.
End DriveTools.

Module ContactsTools.
Section WithLibrary.
Context `{Lib : Library}.

Definition get_tools : list json :=
    [
      JObj [
        ("name", JStr "get_workspace_contacts");
        ("description", JStr "Retrieve contact information and details from Google Contacts");
        ("inputSchema", JObj [
          ("type", JStr "object");
          ("properties", JObj [
            ("email", JObj [ ("type", JStr "string"); ("description", JStr "Email address of the account")]);
            ("pageSize", JObj [
              ("type", JStr "number");
              ("description", JStr "Number of contacts to return (default: 10)")]);
            ("pageToken", JObj [ ("type", JStr "string"); ("description", JStr "Token for pagination")]);
            ("query", JObj [ ("type", JStr "string"); ("description", JStr "Search query to filter contacts")]);
            ("sortOrder", JObj [
              ("type", JStr "string");
              ("enum", JArr [JStr "LAST_NAME_ASCENDING"; JStr "LAST_NAME_DESCENDING"; JStr "FIRST_NAME_ASCENDING"; JStr "FIRST_NAME_DESCENDING"]);
              ("description", JStr "Sort order for contacts")]);
            ("readMask", JObj [
              ("type", JStr "string");
              ("description", JStr "Fields to include in response (comma-separated)")])]);
          ("required", JArr [JStr "email"])])] ].

Definition tool_names : list string :=
    [ "get_workspace_contacts" ].

Definition has_tool (name : json) : bool := name_in name tool_names.

Definition handle_tool (name args : json) : M json :=
    let* email := lift (dict_get args "email" JNull) in
    if negb (truthy email) then ret (text_result "Error: Email is required")
    else
      let* service := AuthManager.get_authenticated_client (py_str email) "people" "v1" in
      match service with
      | None => ret (text_result "Error: Account not authenticated")
      | Some service =>
          try_except
            (if name_in name tool_names then do_execute name [service] args
             else ret (text_result ("Error: Unknown tool: " +:+ py_str name)))
            (fun e => ret (text_result ("Error: " +:+ exn_str e)))
      end.

Definition tools : BaseTools.t := BaseTools.Make get_tools has_tool handle_tool.
End WithLibrary.
End ContactsTools.

Module DocsTools.
Section WithLibrary.
Context `{Lib : Library}.

Definition get_tools : list json :=
    [
      JObj [
        ("name", JStr "create_workspace_document");
        ("description", JStr "Create a new blank Google Doc document");
        ("inputSchema", JObj [
          ("type", JStr "object");
          ("properties", JObj [
            ("email", JObj [ ("type", JStr "string"); ("description", JStr "Email address of the account")]);
            ("title", JObj [ ("type", JStr "string"); ("description", JStr "Title of the document")]);
            ("parentFolderId", JObj [
              ("type", JStr "string");
              ("description", JStr "Parent folder ID in Google Drive (optional)")])]);
          ("required", JArr [JStr "email"; JStr "title"])])];
      JObj [
        ("name", JStr "copy_workspace_document");
        ("description", JStr "Copy an existing Google Doc to create a new document");
        ("inputSchema", JObj [
          ("type", JStr "object");
          ("properties", JObj [
            ("email", JObj [ ("type", JStr "string"); ("description", JStr "Email address of the account")]);
            ("documentId", JObj [ ("type", JStr "string"); ("description", JStr "ID of the document to copy")]);
            ("newTitle", JObj [ ("type", JStr "string"); ("description", JStr "Title for the copied document")])]);
          ("required", JArr [JStr "email"; JStr "documentId"; JStr "newTitle"])])];
      JObj [
        ("name", JStr "get_workspace_document");
        ("description", JStr "Get the content and metadata of a Google Doc");
        ("inputSchema", JObj [
          ("type", JStr "object");
          ("properties", JObj [
            ("email", JObj [ ("type", JStr "string"); ("description", JStr "Email address of the account")]);
            ("documentId", JObj [ ("type", JStr "string"); ("description", JStr "ID of the document")]);
            ("suggestionsViewMode", JObj [
              ("type", JStr "string");
              ("enum", JArr [JStr "DEFAULT_FOR_CURRENT_ACCESS"; JStr "SUGGESTIONS_INLINE"; JStr "SUGGESTIONS_IN_DIALOG"; JStr "PREVIEW_WITHOUT_SUGGESTIONS"]);
              ("description", JStr "Controls whether suggestions in the document are shown")])]);
          ("required", JArr [JStr "email"; JStr "documentId"])])];
      JObj [
        ("name", JStr "list_workspace_documents");
        ("description", JStr "List all Google Docs documents");
        ("inputSchema", JObj [
          ("type", JStr "object");
          ("properties", JObj [
            ("email", JObj [ ("type", JStr "string"); ("description", JStr "Email address of the account")]);
            ("pageSize", JObj [
              ("type", JStr "number");
              ("description", JStr "Number of documents to return (default: 10)")]);
            ("pageToken", JObj [ ("type", JStr "string"); ("description", JStr "Token for pagination")]);
            ("q", JObj [
              ("type", JStr "string");
              ("description", JStr "Query string for filtering documents")])]);
          ("required", JArr [JStr "email"])])];
      JObj [
        ("name", JStr "insert_text_into_document");
        ("description", JStr "Insert text into a Google Doc at a specific index location");
        ("inputSchema", JObj [
          ("type", JStr "object");
          ("properties", JObj [
            ("email", JObj [ ("type", JStr "string"); ("description", JStr "Email address of the account")]);
            ("documentId", JObj [ ("type", JStr "string"); ("description", JStr "ID of the document")]);
            ("text", JObj [ ("type", JStr "string"); ("description", JStr "Text to insert")]);
            ("index", JObj [
              ("type", JStr "number");
              ("description", JStr "Index location to insert text (UTF-16 code units)")]);
            ("tabId", JObj [
              ("type", JStr "string");
              ("description", JStr "Tab ID (optional, defaults to body)")])]);
          ("required", JArr [JStr "email"; JStr "documentId"; JStr "text"; JStr "index"])])];
      JObj [
        ("name", JStr "delete_text_from_document");
        ("description", JStr "Delete text from a Google Doc between two index locations");
        ("inputSchema", JObj [
          ("type", JStr "object");
          ("properties", JObj [
            ("email", JObj [ ("type", JStr "string"); ("description", JStr "Email address of the account")]);
            ("documentId", JObj [ ("type", JStr "string"); ("description", JStr "ID of the document")]);
            ("startIndex", JObj [ ("type", JStr "number"); ("description", JStr "Start index of text to delete")]);
            ("endIndex", JObj [ ("type", JStr "number"); ("description", JStr "End index of text to delete")]);
            ("tabId", JObj [
              ("type", JStr "string");
              ("description", JStr "Tab ID (optional, defaults to body)")])]);
          ("required", JArr [JStr "email"; JStr "documentId"; JStr "startIndex"; JStr "endIndex"])])];
      JObj [
        ("name", JStr "batch_update_document");
        ("description", JStr "Perform multiple document edits in a single batch operation");
        ("inputSchema", JObj [
          ("type", JStr "object");
          ("properties", JObj [
            ("email", JObj [ ("type", JStr "string"); ("description", JStr "Email address of the account")]);
            ("documentId", JObj [ ("type", JStr "string"); ("description", JStr "ID of the document")]);
            ("requests", JObj [
              ("type", JStr "array");
              ("description", JStr "Array of edit requests to perform")])]);
          ("required", JArr [JStr "email"; JStr "documentId"; JStr "requests"])])] ].

Definition tool_names : list string :=
    [ "create_workspace_document";
      "copy_workspace_document";
      "get_workspace_document";
      "list_workspace_documents";
      "insert_text_into_document";
      "delete_text_from_document";
      "batch_update_document" ].

Definition has_tool (name : json) : bool := name_in name tool_names.

Definition handle_tool (name args : json) : M json :=
    let* email := lift (dict_get args "email" JNull) in
    if negb (truthy email) then ret (text_result "Error: Email is required")
    else
      let* docs_service := AuthManager.get_authenticated_client (py_str email) "docs" "v1" in
      let* drive_service := AuthManager.get_authenticated_client (py_str email) "drive" "v3" in
      match docs_service, drive_service with
      | Some docs_service, Some drive_service =>
          try_except
            (if name_in name tool_names then do_execute name [docs_service; drive_service] args
             else ret (text_result ("Error: Unknown tool: " +:+ py_str name)))
            (fun e => ret (text_result ("Error: " +:+ exn_str e)))
      | _, _ => ret (text_result "Error: Account not authenticated")
      end.

Definition tools : BaseTools.t := BaseTools.Make get_tools has_tool handle_tool.
End WithLibrary.
End DocsTools.

Module SheetsTools.
Section WithLibrary.
Context `{Lib : Library}.

Definition get_tools : list json :=
    [
      JObj [
        ("name", JStr "create_workspace_spreadsheet");
        ("description", JStr "Create a new blank Google Spreadsheet");
        ("inputSchema", JObj [
          ("type", JStr "object");
          ("properties", JObj [
            ("email", JObj [ ("type", JStr "string"); ("description", JStr "Email address of the account")]);
            ("title", JObj [ ("type", JStr "string"); ("description", JStr "Title of the spreadsheet")]);
            ("parentFolderId", JObj [
              ("type", JStr "string");
              ("description", JStr "Parent folder ID in Google Drive (optional)")])]);
          ("required", JArr [JStr "email"; JStr "title"])])];
      JObj [
        ("name", JStr "get_sheet_values");
        ("description", JStr "Get cell values from a spreadsheet range");
        ("inputSchema", JObj [
          ("type", JStr "object");
          ("properties", JObj [
            ("email", JObj [ ("type", JStr "string"); ("description", JStr "Email address of the account")]);
            ("spreadsheetId", JObj [ ("type", JStr "string"); ("description", JStr "ID of the spreadsheet")]);
            ("range", JObj [
              ("type", JStr "string");
              ("description", JStr "Range in A1 notation (e.g., 'Sheet1!A1:C2')")]);
            ("majorDimension", JObj [
              ("type", JStr "string");
              ("enum", JArr [JStr "ROWS"; JStr "COLUMNS"]);
              ("description", JStr "How to return the values")]);
            ("valueRenderOption", JObj [
              ("type", JStr "string");
              ("enum", JArr [JStr "FORMATTED_VALUE"; JStr "UNFORMATTED_VALUE"; JStr "FORMULA"]);
              ("description", JStr "How values should be rendered")])]);
          ("required", JArr [JStr "email"; JStr "spreadsheetId"; JStr "range"])])];
      JObj [
        ("name", JStr "batch_get_sheet_values");
        ("description", JStr "Get cell values from multiple spreadsheet ranges");
        ("inputSchema", JObj [
          ("type", JStr "object");
          ("properties", JObj [
            ("email", JObj [ ("type", JStr "string"); ("description", JStr "Email address of the account")]);
            ("spreadsheetId", JObj [ ("type", JStr "string"); ("description", JStr "ID of the spreadsheet")]);
            ("ranges", JObj [
              ("type", JStr "array");
              ("items", JObj [ ("type", JStr "string")]);
              ("description", JStr "Array of ranges in A1 notation")]);
            ("majorDimension", JObj [
              ("type", JStr "string");
              ("enum", JArr [JStr "ROWS"; JStr "COLUMNS"]);
              ("description", JStr "How to return the values")]);
            ("valueRenderOption", JObj [
              ("type", JStr "string");
              ("enum", JArr [JStr "FORMATTED_VALUE"; JStr "UNFORMATTED_VALUE"; JStr "FORMULA"]);
              ("description", JStr "How values should be rendered")])]);
          ("required", JArr [JStr "email"; JStr "spreadsheetId"; JStr "ranges"])])];
      JObj [
        ("name", JStr "update_sheet_values");
        ("description", JStr "Update cell values in a spreadsheet range");
        ("inputSchema", JObj [
          ("type", JStr "object");
          ("properties", JObj [
            ("email", JObj [ ("type", JStr "string"); ("description", JStr "Email address of the account")]);
            ("spreadsheetId", JObj [ ("type", JStr "string"); ("description", JStr "ID of the spreadsheet")]);
            ("range", JObj [ ("type", JStr "string"); ("description", JStr "Range in A1 notation")]);
            ("values", JObj [ ("type", JStr "array"); ("description", JStr "2D array of values to write")]);
            ("valueInputOption", JObj [
              ("type", JStr "string");
              ("enum", JArr [JStr "RAW"; JStr "USER_ENTERED"]);
              ("description", JStr "How input data should be interpreted")]);
            ("majorDimension", JObj [
              ("type", JStr "string");
              ("enum", JArr [JStr "ROWS"; JStr "COLUMNS"]);
              ("description", JStr "The dimension along which data is written")])]);
          ("required", JArr [JStr "email"; JStr "spreadsheetId"; JStr "range"; JStr "values"])])];
      JObj [
        ("name", JStr "batch_update_sheet_values");
        ("description", JStr "Update cell values in multiple spreadsheet ranges at once");
        ("inputSchema", JObj [
          ("type", JStr "object");
          ("properties", JObj [
            ("email", JObj [ ("type", JStr "string"); ("description", JStr "Email address of the account")]);
            ("spreadsheetId", JObj [ ("type", JStr "string"); ("description", JStr "ID of the spreadsheet")]);
            ("data", JObj [
              ("type", JStr "array");
              ("items", JObj [ ("type", JStr "object")]);
              ("description", JStr "Array of range and values objects")]);
            ("valueInputOption", JObj [
              ("type", JStr "string");
              ("enum", JArr [JStr "RAW"; JStr "USER_ENTERED"]);
              ("description", JStr "How input data should be interpreted")])]);
          ("required", JArr [JStr "email"; JStr "spreadsheetId"; JStr "data"])])];
      JObj [
        ("name", JStr "append_sheet_values");
        ("description", JStr "Append cell values to the end of a table in a spreadsheet");
        ("inputSchema", JObj [
          ("type", JStr "object");
          ("properties", JObj [
            ("email", JObj [ ("type", JStr "string"); ("description", JStr "Email address of the account")]);
            ("spreadsheetId", JObj [ ("type", JStr "string"); ("description", JStr "ID of the spreadsheet")]);
            ("range", JObj [
              ("type", JStr "string");
              ("description", JStr "Range in A1 notation (used to find the table)")]);
            ("values", JObj [ ("type", JStr "array"); ("description", JStr "2D array of values to append")]);
            ("valueInputOption", JObj [
              ("type", JStr "string");
              ("enum", JArr [JStr "RAW"; JStr "USER_ENTERED"]);
              ("description", JStr "How input data should be interpreted")]);
            ("insertDataOption", JObj [
              ("type", JStr "string");
              ("enum", JArr [JStr "OVERWRITE"; JStr "INSERT_ROWS"]);
              ("description", JStr "Whether to overwrite or insert rows")])]);
          ("required", JArr [JStr "email"; JStr "spreadsheetId"; JStr "range"; JStr "values"])])] ].

Definition tool_names : list string :=
    [ "create_workspace_spreadsheet";
      "get_sheet_values";
      "batch_get_sheet_values";
      "update_sheet_values";
      "batch_update_sheet_values";
      "append_sheet_values" ].

Definition has_tool (name : json) : bool := name_in name tool_names.

Definition handle_tool (name args : json) : M json :=
    let* email := lift (dict_get args "email" JNull) in
    if negb (truthy email) then ret (text_result "Error: Email is required")
    else
      let* sheets_service := AuthManager.get_authenticated_client (py_str email) "sheets" "v4" in
      let* drive_service := AuthManager.get_authenticated_client (py_str email) "drive" "v3" in
      match sheets_service, drive_service with
      | Some sheets_service, Some drive_service =>
          try_except
            (if name_in name tool_names then do_execute name [sheets_service; drive_service] args
             else ret (text_result ("Error: Unknown tool: " +:+ py_str name)))
            (fun e => ret (text_result ("Error: " +:+ exn_str e)))
      | _, _ => ret (text_result "Error: Account not authenticated")
      end.

Definition tools : BaseTools.t := BaseTools.Make get_tools has_tool handle_tool.
End WithLibrary.
End SheetsTools.

(* ===================================================================== *)
(** ** [mcp_server.py] *)
(* ===================================================================== *)

Module MCPServer.
Section WithLibrary.
Context `{Lib : Library}.
Variable auth_manager : OAuthConfig.

Definition account_tools : BaseTools.t := AccountTools.tools auth_manager.
Definition gmail_tools : BaseTools.t := GmailTools.tools.
Definition calendar_tools : BaseTools.t := CalendarTools.tools.
Definition drive_tools : BaseTools.t := DriveTools.tools.
Definition contacts_tools : BaseTools.t := ContactsTools.tools.
Definition docs_tools : BaseTools.t := DocsTools.tools.
Definition sheets_tools : BaseTools.t := SheetsTools.tools.

(** [tools.extend(more)] *)
Definition extend (tools more : list json) : list json := tools ++ more.

Definition _get_all_tools : list json :=
    let tools := [] in
    let tools := extend tools (BaseTools.get_tools account_tools) in
    let tools := extend tools (BaseTools.get_tools gmail_tools) in
    let tools := extend tools (BaseTools.get_tools calendar_tools) in
    let tools := extend tools (BaseTools.get_tools drive_tools) in
    let tools := extend tools (BaseTools.get_tools contacts_tools) in
    let tools := extend tools (BaseTools.get_tools docs_tools) in
    let tools := extend tools (BaseTools.get_tools sheets_tools) in
    tools.

(** The six modules that act on behalf of an account. *)
Definition service_modules : list BaseTools.t :=
    [gmail_tools; calendar_tools; drive_tools; contacts_tools; docs_tools; sheets_tools].

(** Some module answers [has_tool name]. *)
Definition registered (name : json) : bool :=
    BaseTools.has_tool account_tools name
    || existsb (fun m => BaseTools.has_tool m name) service_modules.

(** [self.all_tools], set once in [__init__]. *)
Definition all_tools : list json := _get_all_tools.

Definition _handle_list_tools (request : json) : M json :=
    let* id := lift (dict_get request "id" JNull) in
    ret (JObj [ ("jsonrpc", JStr "2.0");
                ("id", id);
                ("result", JObj [("tools", JArr all_tools)]) ]).

Definition error_response (id : json) (code : Z) (message : string) : json :=
    JObj [ ("jsonrpc", JStr "2.0");
           ("id", id);
           ("error", JObj [("code", JNum code); ("message", JStr message)]) ].

Definition _handle_call_tool (request : json) : M json :=
    let* params := lift (dict_get request "params" (JObj [])) in
    let* tool_name := lift (dict_get params "name" JNull) in
    let* arguments := lift (dict_get params "arguments" (JObj [])) in
    try_except
      (let* result :=
         (if BaseTools.has_tool account_tools tool_name then
            BaseTools.handle_tool account_tools tool_name arguments
          else if BaseTools.has_tool gmail_tools tool_name then
            BaseTools.handle_tool gmail_tools tool_name arguments
          else if BaseTools.has_tool calendar_tools tool_name then
            BaseTools.handle_tool calendar_tools tool_name arguments
          else if BaseTools.has_tool drive_tools tool_name then
            BaseTools.handle_tool drive_tools tool_name arguments
          else if BaseTools.has_tool contacts_tools tool_name then
            BaseTools.handle_tool contacts_tools tool_name arguments
          else if BaseTools.has_tool docs_tools tool_name then
            BaseTools.handle_tool docs_tools tool_name arguments
          else if BaseTools.has_tool sheets_tools tool_name then
            BaseTools.handle_tool sheets_tools tool_name arguments
          else raise (Exn ValueError ("Unknown tool: " +:+ py_str tool_name))) in
       let* id := lift (dict_get request "id" JNull) in
       ret (JObj [("jsonrpc", JStr "2.0"); ("id", id); ("result", result)]))
      (fun e =>
         let* id := lift (dict_get request "id" JNull) in
         ret (error_response id (-32603) (exn_str e))).

Definition _handle_initialize (request : json) : M json :=
    let* id := lift (dict_get request "id" JNull) in
    ret (JObj [ ("jsonrpc", JStr "2.0");
                ("id", id);
                ("result",
                 JObj [ ("protocolVersion", JStr "2024-11-05");
                        ("capabilities", JObj [("tools", JObj [])]);
                        ("serverInfo",
                         JObj [ ("name", JStr "google-workspace-mcp");
                                ("version", JStr "1.0.0") ]) ]) ]).

Definition _handle_notification_initialized (request : json) : M unit := ret tt.

(** [method == "literal"] *)
Definition is_method (method : json) (literal : string) : bool :=
    match method with
    | JStr s => String.eqb s literal
    | _ => false
    end.

Definition _handle_request (message : json) : M (option json) :=
    let* method := lift (dict_get message "method" JNull) in
    if is_method method "initialize" then
      let* r := _handle_initialize message in ret (Some r)
    else if is_method method "tools/list" then
      let* r := _handle_list_tools message in ret (Some r)
    else if is_method method "tools/call" then
      let* r := _handle_call_tool message in ret (Some r)
    else if is_method method "notifications/initialized" then
      _handle_notification_initialized message >> ret None
    else
      let* id := lift (dict_get message "id" JNull) in
      ret (Some (error_response id (-32601) ("Method not found: " +:+ py_str method))).

(** [sys.stdout.write(json.dumps(response) + "\n")] and the flush. *)
Definition send (response : json) : M unit :=
    modify (write_stdout (json_dumps response +:+ LF)).

(** One turn of the [while True] loop on a line that is not the end
    of the input. *)
Definition serve_line (line : string) : M unit :=
    try_except
      (let* message := lift (json_load (str_strip line)) in
       let* response := _handle_request message in
       match response with
       | Some response => if truthy response then send response else ret tt
       | None => ret tt
       end)
      (fun e =>
         match exn_type e with
         | JSONDecodeError =>
             send (error_response JNull (-32700) ("Parse error: " +:+ exn_str e))
         | _ =>
             send (error_response JNull (-32603) ("Internal error: " +:+ exn_str e))
         end).

(** [run] on the lines still to come from [sys.stdin].  [readline]
    returns the empty string at the end of the input, which ends the
    loop, as does a line that is itself empty. *)
Fixpoint run (stdin : list string) : M unit :=
    match stdin with
    | [] => ret tt
    | line :: rest =>
        if String.eqb line "" then ret tt
        else serve_line line >> run rest
    end.
End WithLibrary.
End MCPServer.

(** The names the modules answer to in [has_tool], in dispatch order. *)
Definition all_tool_names : list string :=
  AccountTools.tool_names ++ GmailTools.tool_names ++ CalendarTools.tool_names
    ++ DriveTools.tool_names ++ ContactsTools.tool_names
    ++ DocsTools.tool_names ++ SheetsTools.tool_names.

(* ===================================================================== *)
(** ** A concrete library *)
(* ===================================================================== *)

(** An executable [Library] on which the model can be run: a JSON codec
    for the documents above with a nesting limit, [str.strip] over
    UTF-8 text, the ISO-8601 shapes [datetime.isoformat] prints, a file
    system that turns down over-long names and missing directories, and
    scripted answers for the network. *)
Module Sample.

Definition dquote : ascii := ascii_of_nat 34.
Definition backslash : ascii := ascii_of_nat 92.
Definition quoted (q : ascii) (s : string) : string :=
  String q (s +:+ String q EmptyString).

(** [n] copies of [s]. *)
Fixpoint copies (n : nat) (s : string) : string :=
  match n with
  | O => EmptyString
  | S n => s +:+ copies n s
  end.

(** *** Decimal numbers *)

Definition digit_char (d : Z) : ascii := ascii_of_nat (48 + Z.to_nat d).

Fixpoint decimal (fuel : nat) (n : Z) (acc : string) : string :=
  match fuel with
  | O => acc
  | S fuel =>
      let acc := String (digit_char (n mod 10)) acc in
      if (n <? 10)%Z then acc else decimal fuel (n / 10) acc
  end.

Definition string_of_Z (n : Z) : string :=
  let digits m := decimal (S (Z.to_nat (Z.log2 m))) m EmptyString in
  if (n <? 0)%Z then String "-" (digits (- n)%Z) else digits n.

(** [k] digits, zero-padded. *)
Fixpoint fixed (k : nat) (n : Z) : string :=
  match k with
  | O => EmptyString
  | S k => fixed k (n / 10) +:+ String (digit_char (n mod 10)) EmptyString
  end.

Definition digit_value (c : ascii) : option Z :=
  let n := nat_of_ascii c in
  if ((48 <=? n) && (n <=? 57))%nat then Some (Z.of_nat (n - 48)) else None.

(** The number written by a string of digits only. *)
Fixpoint number (s : string) (acc : Z) : option Z :=
  match s with
  | EmptyString => Some acc
  | String c rest =>
      match digit_value c with
      | Some d => number rest (10 * acc + d)%Z
      | None => None
      end
  end.

(** The longest prefix of digits, as a number, and what follows it. *)
Fixpoint leading_number (s : string) (acc : Z) : Z * string :=
  match s with
  | EmptyString => (acc, s)
  | String c rest =>
      match digit_value c with
      | Some d => leading_number rest (10 * acc + d)%Z
      | None => (acc, s)
      end
  end.

(** *** str.strip *)

Definition utf8 (bytes : list nat) : string :=
  string_of_list_ascii (map ascii_of_nat bytes).

(** The characters [str.isspace] accepts, in UTF-8: U+0009 to U+000D,
    U+001C to U+0020, U+0085, U+00A0, U+1680, U+2000 to U+200A, U+2028,
    U+2029, U+202F, U+205F and U+3000. *)
Definition white_space : list string :=
  map utf8
    [ [9]; [10]; [11]; [12]; [13]; [28]; [29]; [30]; [31]; [32];
      [194; 133]; [194; 160]; [225; 154; 128];
      [226; 128; 128]; [226; 128; 129]; [226; 128; 130]; [226; 128; 131];
      [226; 128; 132]; [226; 128; 133]; [226; 128; 134]; [226; 128; 135];
      [226; 128; 136]; [226; 128; 137]; [226; 128; 138];
      [226; 128; 168]; [226; 128; 169]; [226; 128; 175];
      [226; 129; 159]; [227; 128; 128] ]%nat.

(** [s] without the first of [prefixes] it starts with. *)
Fixpoint drop_prefix (prefixes : list string) (s : string) : option string :=
  match prefixes with
  | [] => None
  | p :: more =>
      if String.prefix p s
      then Some (String.substring (String.length p)
                                  (String.length s - String.length p) s)
      else drop_prefix more s
  end.

Fixpoint drop_leading (fuel : nat) (prefixes : list string) (s : string) : string :=
  match fuel with
  | O => s
  | S fuel =>
      match drop_prefix prefixes s with
      | Some rest => drop_leading fuel prefixes rest
      | None => s
      end
  end.

Definition lstrip (s : string) : string :=
  drop_leading (String.length s) white_space s.

(** [s] backwards, in front of [acc]. *)
Fixpoint reverse_onto (s acc : string) : string :=
  match s with
  | EmptyString => acc
  | String c rest => reverse_onto rest (String c acc)
  end.

Definition reverse (s : string) : string := reverse_onto s EmptyString.

Definition rstrip (s : string) : string :=
  reverse (drop_leading (String.length s) (map reverse white_space) (reverse s)).

Definition strip (s : string) : string := rstrip (lstrip s).

(** *** json.dumps and repr *)

Definition escape_char (c : ascii) : string :=
  if Ascii.eqb c dquote then String backslash (String dquote EmptyString)
  else if Ascii.eqb c backslash then String backslash (String backslash EmptyString)
  else if Ascii.eqb c (ascii_of_nat 10) then String backslash "n"
  else String c EmptyString.

Fixpoint escape (s : string) : string :=
  match s with
  | EmptyString => EmptyString
  | String c rest => escape_char c +:+ escape rest
  end.

Fixpoint join (sep : string) (parts : list string) : string :=
  match parts with
  | [] => EmptyString
  | [p] => p
  | p :: rest => p +:+ sep +:+ join sep rest
  end.

Fixpoint dumps (v : json) : string :=
  match v with
  | JNull => "null"
  | JBool true => "true"
  | JBool false => "false"
  | JNum n => string_of_Z n
  | JStr s => quoted dquote (escape s)
  | JArr items => "[" +:+ join ", " (map dumps items) +:+ "]"
  | JObj fields =>
      "{" +:+ join ", " (map (fun kv => quoted dquote (escape (fst kv)) +:+ ": "
                                          +:+ dumps (snd kv)) fields) +:+ "}"
  end.

Fixpoint repr (v : json) : string :=
  match v with
  | JNull => "None"
  | JBool true => "True"
  | JBool false => "False"
  | JNum n => string_of_Z n
  | JStr s => quoted "'" s
  | JArr items => "[" +:+ join ", " (map repr items) +:+ "]"
  | JObj fields =>
      "{" +:+ join ", " (map (fun kv => quoted "'" (fst kv) +:+ ": "
                                          +:+ repr (snd kv)) fields) +:+ "}"
  end.

(** *** json.loads *)

(** White space between JSON tokens: space, tab, line feed, carriage
    return. *)
Fixpoint skip (s : string) : string :=
  match s with
  | String c rest =>
      let n := nat_of_ascii c in
      if ((n =? 32) || (n =? 9) || (n =? 10) || (n =? 13))%nat then skip rest else s
  | EmptyString => s
  end.

(** What a parser makes of a text: a value and the text after it, a
    syntax error, or nesting beyond the limit. *)
Inductive parsed (A : Type) : Type :=
| Parsed (a : A) (rest : string)
| Malformed
| TooDeep.
Arguments Parsed {A} a rest.
Arguments Malformed {A}.
Arguments TooDeep {A}.

(** The characters of a string literal after its opening quote. *)
Fixpoint string_body (s : string) : option (string * string) :=
  match s with
  | EmptyString => None
  | String c rest =>
      if Ascii.eqb c dquote then Some (EmptyString, rest)
      else if Ascii.eqb c backslash then
        match rest with
        | EmptyString => None
        | String e rest' =>
            let plain :=
              if Ascii.eqb e "n" then Some (ascii_of_nat 10)
              else if Ascii.eqb e dquote || Ascii.eqb e backslash || Ascii.eqb e "/"
              then Some e else None in
            match plain, string_body rest' with
            | Some x, Some (body, after) => Some (String x body, after)
            | _, _ => None
            end
        end
      else
        match string_body rest with
        | Some (body, after) => Some (String c body, after)
        | None => None
        end
  end.

Definition literal (word : string) (v : json) (s : string) : parsed json :=
  if String.prefix word s
  then Parsed v (String.substring (String.length word)
                                  (String.length s - String.length word) s)
  else Malformed.

(** [depth] is the nesting still allowed. *)
Fixpoint value (fuel depth : nat) (s : string) {struct fuel} : parsed json :=
  match fuel with
  | O => Malformed
  | S fuel =>
      match skip s with
      | EmptyString => Malformed
      | String c rest =>
          if Ascii.eqb c dquote then
            match string_body rest with
            | Some (body, after) => Parsed (JStr body) after
            | None => Malformed
            end
          else if Ascii.eqb c "[" then
            match depth with
            | O => TooDeep
            | S depth =>
                match skip rest with
                | String "]" after => Parsed (JArr []) after
                | _ =>
                    match items fuel depth rest with
                    | Parsed vs after => Parsed (JArr vs) after
                    | Malformed => Malformed
                    | TooDeep => TooDeep
                    end
                end
            end
          else if Ascii.eqb c "{" then
            match depth with
            | O => TooDeep
            | S depth =>
                match skip rest with
                | String "}" after => Parsed (JObj []) after
                | _ =>
                    match members fuel depth rest with
                    | Parsed kvs after => Parsed (JObj kvs) after
                    | Malformed => Malformed
                    | TooDeep => TooDeep
                    end
                end
            end
          else if Ascii.eqb c "-" then
            match rest with
            | String d _ =>
                match digit_value d with
                | Some _ => let (n, after) := leading_number rest 0 in
                            Parsed (JNum (- n)) after
                | None => Malformed
                end
            | EmptyString => Malformed
            end
          else
            match digit_value c with
            | Some _ => let (n, after) := leading_number (String c rest) 0 in
                        Parsed (JNum n) after
            | None =>
                match literal "null" JNull (String c rest) with
                | Parsed v after => Parsed v after
                | _ =>
                    match literal "true" (JBool true) (String c rest) with
                    | Parsed v after => Parsed v after
                    | _ => literal "false" (JBool false) (String c rest)
                    end
                end
            end
      end
  end
with items (fuel depth : nat) (s : string) {struct fuel} : parsed (list json) :=
  match fuel with
  | O => Malformed
  | S fuel =>
      match value fuel depth s with
      | Parsed v after =>
          match skip after with
          | String "," more =>
              match items fuel depth more with
              | Parsed vs rest => Parsed (v :: vs) rest
              | Malformed => Malformed
              | TooDeep => TooDeep
              end
          | String "]" rest => Parsed [v] rest
          | _ => Malformed
          end
      | Malformed => Malformed
      | TooDeep => TooDeep
      end
  end
with members (fuel depth : nat) (s : string) {struct fuel}
  : parsed (list (string * json)) :=
  match fuel with
  | O => Malformed
  | S fuel =>
      match skip s with
      | String q rest =>
          if Ascii.eqb q dquote then
            match string_body rest with
            | Some (k, after) =>
                match skip after with
                | String ":" after =>
                    match value fuel depth after with
                    | Parsed v after =>
                        match skip after with
                        | String "," more =>
                            match members fuel depth more with
                            | Parsed kvs rest => Parsed ((k, v) :: kvs) rest
                            | Malformed => Malformed
                            | TooDeep => TooDeep
                            end
                        | String "}" rest => Parsed [(k, v)] rest
                        | _ => Malformed
                        end
                    | Malformed => Malformed
                    | TooDeep => TooDeep
                    end
                | _ => Malformed
                end
            | None => Malformed
            end
          else Malformed
      | EmptyString => Malformed
      end
  end.

(** The nesting at which the decoder gives up. *)
Definition recursion_limit : nat := 1000.

Definition loads (s : string) : result json :=
  match value (2 * String.length s + 2) recursion_limit s with
  | Parsed v rest =>
      match skip rest with
      | EmptyString => Ok v
      | _ => Raise (Exn JSONDecodeError "Extra data")
      end
  | Malformed => Raise (Exn JSONDecodeError "Expecting value")
  | TooDeep =>
      Raise (Exn RecursionError
                 "maximum recursion depth exceeded while decoding a JSON array from a unicode string")
  end.

(** *** datetime.isoformat and datetime.fromisoformat *)

(** Days since 1970-01-01 to and from the proleptic Gregorian
    calendar. *)
Definition civil_from_days (days : Z) : Z * Z * Z :=
  (let z := days + 719468 in
   let era := z / 146097 in
   let doe := z - era * 146097 in
   let yoe := (doe - doe / 1460 + doe / 36524 - doe / 146096) / 365 in
   let doy := doe - (365 * yoe + yoe / 4 - yoe / 100) in
   let mp := (5 * doy + 2) / 153 in
   let d := doy - (153 * mp + 2) / 5 + 1 in
   let m := if mp <? 10 then mp + 3 else mp - 9 in
   let y := yoe + era * 400 in
   (if m <=? 2 then y + 1 else y, m, d))%Z.

Definition days_from_civil (y m d : Z) : Z :=
  (let y := if m <=? 2 then y - 1 else y in
   let era := y / 400 in
   let yoe := y - era * 400 in
   let doy := (153 * (if 2 <? m then m - 3 else m + 9) + 2) / 5 + d - 1 in
   let doe := yoe * 365 + yoe / 4 - yoe / 100 + doy in
   era * 146097 + doe - 719468)%Z.

(** The wall clock [t], in microseconds since the epoch. *)
Definition wall_clock (t : Z) : string :=
  let day := (t / 86400000000)%Z in
  let rest := (t mod 86400000000)%Z in
  let '(y, m, d) := civil_from_days day in
  let us := (rest mod 1000000)%Z in
  fixed 4 y +:+ "-" +:+ fixed 2 m +:+ "-" +:+ fixed 2 d +:+ "T"
    +:+ fixed 2 (rest / 3600000000) +:+ ":"
    +:+ fixed 2 (rest / 60000000 mod 60) +:+ ":"
    +:+ fixed 2 (rest / 1000000 mod 60)
    +:+ (if (us =? 0)%Z then EmptyString else "." +:+ fixed 6 us).

Definition utc_offset (minutes : Z) : string :=
  (if (minutes <? 0)%Z then "-" else "+")
    +:+ fixed 2 (Z.abs minutes / 60) +:+ ":" +:+ fixed 2 (Z.abs minutes mod 60).

Definition iso (d : datetime) : string :=
  match d with
  | Naive t => wall_clock t
  | Aware t minutes => wall_clock (t + minutes * 60000000) +:+ utc_offset minutes
  end.

Definition field (s : string) (start len : nat) : option Z :=
  number (String.substring start len s) 0.

(** The wall clock a text of the shape [wall_clock] prints stands for. *)
Definition read_wall_clock (s : string) : option Z :=
  match field s 0 4, field s 5 2, field s 8 2,
        field s 11 2, field s 14 2, field s 17 2, field s 20 6 with
  | Some y, Some m, Some d, Some hh, Some mm, Some ss, Some us =>
      let t := ((((days_from_civil y m d * 24 + hh) * 60 + mm) * 60 + ss)
                * 1000000 + us)%Z in
      if String.eqb (wall_clock t) s then Some t else None
  | _, _, _, _, _, _, _ => None
  end.

(** Accepts exactly the strings [iso] prints. *)
Definition from_iso (s : string) : option datetime :=
  match read_wall_clock s with
  | Some t => Some (Naive t)
  | None =>
      let n := (String.length s - 6)%nat in
      let tail := String.substring n 6 s in
      match read_wall_clock (String.substring 0 n s),
            field tail 1 2, field tail 4 2 with
      | Some t, Some hh, Some mm =>
          let minutes := ((if String.prefix "-" tail then -1 else 1) * (hh * 60 + mm))%Z in
          let d := Aware (t - minutes * 60000000) minutes in
          if String.eqb (iso d) s then Some d else None
      | _, _, _ => None
      end
  end.

(** *** The file system *)

(** A name of more than 255 bytes is refused by every operation; a
    name with a directory part cannot be created, the directory not
    being there. *)
Definition too_long (name : string) : option exn :=
  if (255 <? String.length name)%nat
  then Some (Exn OSError ("[Errno 36] File name too long: '" +:+ name +:+ "'"))
  else None.

Definition cannot_create (name : string) : option (exn * option string) :=
  match too_long name with
  | Some e => Some (e, None)
  | None =>
      match String.index 0 "/" name with
      | Some _ => Some (no_such_file name, None)
      | None => None
      end
  end.

(** *** The network *)

Definition refreshed (t : Z) (c : Credentials.t) : Credentials.t :=
  {| Credentials.token := JStr "ya29.fresh";
     Credentials.refresh_token := Credentials.refresh_token c;
     Credentials.token_uri := Credentials.token_uri c;
     Credentials.client_id := Credentials.client_id c;
     Credentials.client_secret := Credentials.client_secret c;
     Credentials.scopes := Credentials.scopes c;
     Credentials.expiry := Some (Naive (t + 3599000000)) |}.

(** The token endpoint turns down the refresh token ["revoked"]. *)
Definition token_endpoint (history : list event) (t : Z) (c : Credentials.t)
  : result Credentials.t :=
  match Credentials.refresh_token c with
  | JStr "revoked" =>
      Raise (Exn LibraryError "invalid_grant: Token has been expired or revoked.")
  | _ => Ok (refreshed t c)
  end.


Definition granted (cfg : OAuthConfig) (scopes : list string) (code : string)
  : Credentials.t :=
  {| Credentials.token := JStr ("ya29." +:+ code);
     Credentials.refresh_token := JStr ("1//" +:+ code);
     Credentials.token_uri := JStr "https://oauth2.googleapis.com/token";
     Credentials.client_id := JStr (cfg_client_id cfg);
     Credentials.client_secret := JStr (cfg_client_secret cfg);
     Credentials.scopes := JArr (map JStr scopes);
     Credentials.expiry := Some (Naive 1700003599000000) |}.

(** The library, for a given token endpoint. *)
Definition make
  (token_endpoint : list event -> Z -> Credentials.t -> result Credentials.t)
  : Library :=
  {| json_dumps := dumps;
     json_loads := loads;
     str_strip := strip;
     py_repr := repr;
     isoformat := iso;
     fromisoformat := from_iso;
     path_key := fun name => name;
     exists_error := fun _ name => too_long name;
     open_error := fun _ name => too_long name;
     write_error := fun _ name _ => cannot_create name;
     unlink_error := fun _ name => too_long name;
     glob_error := fun _ => None;
     REFRESH_THRESHOLD := 225000000;
     refresh := token_endpoint;
     build_error := fun _ _ _ _ => None;
     execute := fun _ name _ _ => Ok (text_result ("done: " +:+ repr name));
     authorization_url := fun cfg _ state =>
       Ok ("https://accounts.google.com/o/oauth2/auth?client_id="
           +:+ cfg_client_id cfg +:+ "&state=" +:+ state);
     fetch_token := fun _ cfg scopes code =>
       if String.eqb code "" then Raise (Exn LibraryError "invalid_grant: Bad Request")
       else Ok (granted cfg scopes code);
     userinfo := fun _ _ => Ok (JObj [("email", JStr "a@x.com")]);
     uuid4 := fun n => "6f1d2c3b-0000-4000-8000-" +:+ fixed 12 (Z.of_nat n) |}.

Definition library : Library := make token_endpoint.


Definition config : OAuthConfig :=
  {| cfg_client_id := "client.apps.googleusercontent.com";
     cfg_client_secret := "secret";
     cfg_redirect_uri := "http://localhost:8080/oauth/callback" |}.

(** Records of the account [a@x.com], all expired at 2023-11-14T22:13:20. *)
Definition record (refresh_token : json) : Credentials.t :=
  {| Credentials.token := JStr "ya29.old";
     Credentials.refresh_token := refresh_token;
     Credentials.token_uri := JStr "https://oauth2.googleapis.com/token";
     Credentials.client_id := JStr "client.apps.googleusercontent.com";
     Credentials.client_secret := JStr "secret";
     Credentials.scopes := JArr [JStr "openid"];
     Credentials.expiry := Some (Naive 1700000000000000) |}.


(** A world one hour later, with the given token files. *)
Definition world (files : list (string * string)) : World :=
  {| fs := list_to_map files; events := []; stdout := [];
     now := 1700003600000000; rng := 0 |}.

Definition world_with (c : Credentials.t) : World :=
  world [("a@x.com.json", dumps (AuthManager.token_data (Lib := library) c))].

(** An identity of 254 characters. *)
Definition long_identity : string := copies 254 "a".

(** A line of 100000 opening brackets. *)
Definition deep_line : string := copies (Z.to_nat 100000) "[".

(** A [tools/call] request with id 7. *)
Definition call (name : string) (arguments : json) : json :=
  JObj [ ("jsonrpc", JStr "2.0");
         ("id", JNum 7);
         ("method", JStr "tools/call");
         ("params", JObj [("name", JStr name); ("arguments", arguments)]) ].

(** The request [{"jsonrpc": "2.0", "id": 1, "method": "tools/list"}]. *)
Definition list_request : json :=
  JObj [("jsonrpc", JStr "2.0"); ("id", JNum 1); ("method", JStr "tools/list")].
End Sample.

(* ===================================================================== *)
(** ** [routes/account_routes.py], [app.py], [clear_tokens.py] *)
(* ===================================================================== *)


(** The account endpoints of the HTTP interface.  A view returns the
    value given to [jsonify] and the status code. *)
Module AccountRoutes.
Section WithLibrary.
Context `{Lib : Library}.
Variable auth_manager : OAuthConfig.

Definition list_accounts : M (json * Z) :=
  try_except
    (let* accounts := AuthManager.list_accounts in
     ret (JObj [ ("accounts", JArr accounts);
                 ("total", JNum (Z.of_nat (length accounts))) ], 200%Z))
    (fun e => ret (JObj [("error", JStr (exn_str e))], 500%Z)).

(** [get_json] is what [request.get_json()] returns or raises. *)
Definition authenticate_account (get_json : result json) : M (json * Z) :=
  try_except
    (let* body := lift get_json in
     let data := if truthy body then body else JObj [] in
     let* email := lift (dict_get data "email" JNull) in
     let* result := AuthManager.get_auth_url auth_manager email in
     let* success := lift (dict_item result "success") in
     if negb (truthy success) then
       let* error := lift (dict_get result "error" (JStr "Failed to generate auth URL")) in
       ret (JObj [("error", error)], 400%Z)
     else
       let* auth_url := lift (dict_item result "authUrl") in
       let* state := lift (dict_item result "state") in
       ret (JObj [ ("authUrl", auth_url);
                   ("state", state);
                   ("message",
                    JStr "Please visit the authorization URL to complete authentication") ],
            200%Z))
    (fun e => ret (JObj [("error", JStr (exn_str e))], 500%Z)).

Definition remove_account (email : string) : M (json * Z) :=
  try_except
    (let* success := AuthManager.remove_account email in
     if negb success then
       ret (JObj [("error", JStr "Failed to remove account")], 400%Z)
     else
       ret (JObj [("message", JStr ("Successfully removed account: " +:+ email))],
            200%Z))
    (fun e => ret (JObj [("error", JStr (exn_str e))], 500%Z)).
End WithLibrary.
End AccountRoutes.

(** [app.py], the HTTP branch. *)
Module App.

(** What a view hands back: a [jsonify] value, or the confirmation page,
    a fixed HTML template around the authorization code. *)
Inductive body : Type :=
| Json (value : json)
| SuccessPage (code : string).

Section WithLibrary.
Context `{Lib : Library}.
Variable auth_manager : OAuthConfig.

(** [not v] for a query parameter. *)
Definition missing (v : option string) : bool :=
  match v with
  | None => true
  | Some s => String.eqb s ""
  end.

(** [code] and [state] are [request.args.get('code')] and
    [request.args.get('state')]. *)
Definition oauth_callback (code state : option string) : M (body * Z) :=
  try_except
    (match code, state with
     | Some code', Some state' =>
         if missing code || missing state then
           ret (Json (JObj [("error", JStr "Missing authorization code or state")]), 400%Z)
         else
           let* result := AuthManager.handle_oauth_callback auth_manager code' state' in
           let* success := lift (dict_item result "success") in
           if truthy success then ret (SuccessPage code', 200%Z)
           else
             let* error := lift (dict_get result "error" JNull) in
             ret (Json (JObj [("error",
                               JStr ("Authentication failed: " +:+ py_str error))]),
                  400%Z)
     | _, _ =>
         ret (Json (JObj [("error", JStr "Missing authorization code or state")]), 400%Z)
     end)
    (fun e =>
       ret (Json (JObj [("error", JStr ("Internal server error: " +:+ exn_str e))]),
            500%Z)).
End WithLibrary.
End App.

(** [clear_tokens.py], run from the project root: [config_dir] is the
    token directory, [dir_exists] tells whether it is there. *)
Module ClearTokens.
Section WithLibrary.
Context `{Lib : Library}.

End WithLibrary.
End ClearTokens.

(** The names each module answers to, module by module in that order. *)
Definition module_tool_names : list (list string) :=
  [ AccountTools.tool_names; GmailTools.tool_names; CalendarTools.tool_names;
    DriveTools.tool_names; ContactsTools.tool_names; DocsTools.tool_names;
    SheetsTools.tool_names ].

(** The seven modules in the order [_handle_call_tool] asks them. *)
Definition dispatch_order `{Lib : Library} (auth_manager : OAuthConfig) : list BaseTools.t :=
  MCPServer.account_tools auth_manager :: MCPServer.service_modules.

(** What [_handle_call_tool] makes of the outcome of a handler. *)
Definition call_response (id : json) (outcome : result json * World)
  : result json * World :=
  match outcome with
  | (Ok result, w) =>
      (Ok (JObj [("jsonrpc", JStr "2.0"); ("id", id); ("result", result)]), w)
  | (Raise e, w) => (Ok (MCPServer.error_response id (-32603) (exn_str e)), w)
  end.



(* ===================================================================== *)
(** * Properties *)
(* ===================================================================== *)

Ltac unfold_m :=
  unfold try_except, bind, ret, raise, lift, get_world, modify, print,
         file_exists, read_file, write_file, unlink in *.

Ltac break_match :=
  match goal with
  | |- context [match ?x with _ => _ end] => destruct x eqn:?
  | H : context [match ?x with _ => _ end] |- _ => destruct x eqn:?
  end.

Lemma eqb_empty_false (s : string) : s <> "" -> String.eqb s "" = false.
Proof. intros H. apply String.eqb_neq. exact H. Qed.

(** ** Credential store: [_save_tokens], [_load_tokens], [remove_account] *)

Section CredentialStore.
Context `{Lib : Library}.

(** A save that returns has written the record to the account's file
    and done nothing else. *)
Lemma save_tokens_returns email creds w :
  fst (AuthManager._save_tokens email creds w) = Ok tt ->
  AuthManager._save_tokens email creds w
  = (Ok tt, set_fs (insert (path_key (AuthManager.token_file email))
                           (json_dumps (AuthManager.token_data creds))) w).
Proof.
  unfold AuthManager._save_tokens, write_file.
  destruct (write_error _ _ _) as [[e [partial|]]|]; simpl;
    [discriminate | discriminate | reflexivity].
Qed.


(** A successful load opens the token file once and does nothing else. *)
Lemma load_tokens_some email w creds :
  fst (AuthManager._load_tokens email w) = Ok (Some creds) ->
  AuthManager._load_tokens email w
  = (Ok (Some creds), log_event (EvOpenRead (AuthManager.token_file email)) w).
Proof.
  unfold AuthManager._load_tokens. unfold_m.
  repeat (break_match; simpl in *; try congruence).
Qed.

(** A file holding what [_save_tokens] writes for [creds] loads as
    [creds], given the library round trips for that record. *)
Lemma load_tokens_of_saved email creds w :
  exists_error w (AuthManager.token_file email) = None ->
  open_error w (AuthManager.token_file email) = None ->
  fs w !! path_key (AuthManager.token_file email)
    = Some (json_dumps (AuthManager.token_data creds)) ->
  json_loads (json_dumps (AuthManager.token_data creds))
    = Ok (AuthManager.token_data creds) ->
  (forall d, Credentials.expiry creds = Some d ->
             isoformat d <> "" /\ fromisoformat (isoformat d) = Some d) ->
  fst (AuthManager._load_tokens email w) = Ok (Some creds).
Proof.
  intros Hexists Hopen Hfile Hjson Hiso.
  unfold AuthManager._load_tokens, json_load. unfold_m.
  rewrite Hexists, Hfile.
  rewrite bool_decide_eq_true_2 by eauto. simpl.
  rewrite Hopen, Hfile, Hjson. simpl.
  destruct creds as [tok rtok uri cid csec scp [d|]]; simpl in *.
  - destruct (Hiso d eq_refl) as [Hne Hback].
    rewrite (eqb_empty_false _ Hne). simpl. rewrite Hback. reflexivity.
  - reflexivity.
Qed.

(** C4. Whenever [_save_tokens] returns, the account's file holds the
    record as [json.dumps] prints it, and loading it back gives the same
    record, field for field, with the same expiry.  The save may
    instead raise (no such directory, name too long, disk full): then
    there is nothing to read back, and the statement says nothing.
    Assumed: the file just written can be looked up and opened, and the
    two library round trips the code relies on hold for this record:
    [json.loads] reads back what [json.dumps] wrote, and
    [datetime.fromisoformat] reads back the non-empty text [isoformat]
    printed for the expiry. *)
Theorem save_load_roundtrip email creds w :
  fst (AuthManager._save_tokens email creds w) = Ok tt ->
  exists_error (snd (AuthManager._save_tokens email creds w))
               (AuthManager.token_file email) = None ->
  open_error (snd (AuthManager._save_tokens email creds w))
             (AuthManager.token_file email) = None ->
  json_loads (json_dumps (AuthManager.token_data creds))
    = Ok (AuthManager.token_data creds) ->
  (forall d, Credentials.expiry creds = Some d ->
             isoformat d <> "" /\ fromisoformat (isoformat d) = Some d) ->
  fs (snd (AuthManager._save_tokens email creds w))
     !! path_key (AuthManager.token_file email)
    = Some (json_dumps (AuthManager.token_data creds))
  /\ fst (AuthManager._load_tokens email
            (snd (AuthManager._save_tokens email creds w)))
     = Ok (Some creds).
Proof.
  intros Hsave. rewrite (save_tokens_returns _ _ _ Hsave). simpl.
  intros Hexists Hopen Hjson Hiso.
  assert (Hfile : fs (set_fs (insert (path_key (AuthManager.token_file email))
                                     (json_dumps (AuthManager.token_data creds))) w)
                     !! path_key (AuthManager.token_file email)
                  = Some (json_dumps (AuthManager.token_data creds))).
  { simpl. apply lookup_insert_eq. }
  split; [exact Hfile|].
  apply load_tokens_of_saved; assumption.
Qed.

End CredentialStore.

Lemma save_load_roundtrip_witness :
  fs (snd (AuthManager._save_tokens (Lib := Sample.library) "a@x.com"
             (Sample.record (JStr "1//r")) (Sample.world [])))
     !! "a@x.com.json"
    = Some (Sample.dumps (AuthManager.token_data (Lib := Sample.library)
                            (Sample.record (JStr "1//r"))))
  /\ fst (AuthManager._load_tokens (Lib := Sample.library) "a@x.com"
            (snd (AuthManager._save_tokens (Lib := Sample.library) "a@x.com"
                    (Sample.record (JStr "1//r")) (Sample.world []))))
     = Ok (Some (Sample.record (JStr "1//r"))).
Proof.
  apply (save_load_roundtrip (Lib := Sample.library) "a@x.com"
           (Sample.record (JStr "1//r")) (Sample.world [])).
  - vm_compute. reflexivity.
  - vm_compute. reflexivity.
  - vm_compute. reflexivity.
  - vm_compute. reflexivity.
  - intros d Hd. injection Hd as <-. vm_compute. split; [discriminate | reflexivity].
Defined.

(** A save that raises: the identity [corp/a@x.com] names a file in a
    directory that is not there, [open] fails, and nothing is stored. *)
Lemma save_tokens_into_missing_directory :
  AuthManager._save_tokens (Lib := Sample.library) "corp/a@x.com"
    (Sample.record (JStr "1//r")) (Sample.world [])
  = (Raise (Exn FileNotFoundError
                "[Errno 2] No such file or directory: 'corp/a@x.com.json'"),
     Sample.world []).
Proof. vm_compute. reflexivity. Qed.



(** ** Handle minting: [get_authenticated_client] *)

Section HandleMinting.
Context `{Lib : Library}.



(** [get_authenticated_client] never raises. *)
Lemma get_authenticated_client_total email service_name version w :
  exists r w',
    AuthManager.get_authenticated_client email service_name version w = (Ok r, w').
Proof.
  unfold AuthManager.get_authenticated_client. unfold_m.
  destruct (AuthManager._load_tokens email w) as [[[creds|]|e] w1]; simpl; eauto.
  unfold AuthManager.do_refresh, AuthManager.build, AuthManager._save_tokens.
  unfold_m.
  repeat (break_match; simpl in *; try congruence); eauto.
Qed.

(** The call on a record that is not refreshed: the stored credentials
    go to [build]. *)
Lemma get_client_without_refresh email service_name version w creds is_expired :
  fst (AuthManager._load_tokens email w) = Ok (Some creds) ->
  AuthManager.expired (now w) creds = Ok is_expired ->
  is_expired && truthy (Credentials.refresh_token creds) = false ->
  AuthManager.get_authenticated_client email service_name version w
  = match build_error (events w ++ [EvOpenRead (AuthManager.token_file email)])
                      service_name version creds with
    | None =>
        (Ok (Some (MkHandle service_name version creds)),
         log_event (EvBuild service_name version creds)
           (log_event (EvOpenRead (AuthManager.token_file email)) w))
    | Some e =>
        (Ok None,
         write_stdout ("Failed to get authenticated client: " +:+ exn_str e +:+ LF)
           (log_event (EvBuild service_name version creds)
              (log_event (EvOpenRead (AuthManager.token_file email)) w)))
    end.
Proof.
  intros Hload Hexpired Hskip.
  unfold AuthManager.get_authenticated_client. unfold_m.
  rewrite (load_tokens_some _ _ _ Hload). simpl.
  rewrite Hexpired. simpl. rewrite Hskip. simpl.
  unfold AuthManager.build. simpl.
  destruct (build_error _ _ _ _); reflexivity.
Qed.



End HandleMinting.





(** ** Authorization callback: [handle_oauth_callback] *)

Section Authorization.
Context `{Lib : Library}.
Variable self : OAuthConfig.

(** C9. The callback does not look at its [state] argument: with the
    same code, any two states give the same result and leave the
    same token directory, history and output behind. *)
Theorem callback_ignores_state code state1 state2 w :
  AuthManager.handle_oauth_callback self code state1 w
  = AuthManager.handle_oauth_callback self code state2 w.
Proof. reflexivity. Qed.

End Authorization.

(** ** Capability modules: the account check of [handle_tool] *)

Section AccountCheck.
Context `{Lib : Library}.
Variable auth_manager : OAuthConfig.

End AccountCheck.



(** ** Dispatcher and line protocol: [mcp_server.py] *)

Lemma NoDup_map_JStr (names : list string) :
NoDup names -> NoDup (map JStr names).
Proof.
intros Hnd.
assert (Hinj : Inj (=) (=) JStr).
{ intros a b Hab. injection Hab as ->. reflexivity. }
apply (NoDup_fmap_2 JStr), Hnd.
Qed.

Section Dispatcher.
Context `{Lib : Library}.
Variable auth_manager : OAuthConfig.

Lemma all_tool_names_NoDup : NoDup all_tool_names.
Proof. apply (bool_decide_unpack _). vm_compute. exact I. Qed.

(** The catalogue advertises exactly the names [has_tool] accepts. *)
Lemma catalogue_names :
  map descriptor_name (MCPServer.all_tools auth_manager) = map JStr all_tool_names.
Proof. reflexivity. Qed.

Lemma registered_iff_listed name :
  MCPServer.registered auth_manager name = name_in name all_tool_names.
Proof.
  unfold MCPServer.registered. simpl.
  unfold AccountTools.has_tool, GmailTools.has_tool, CalendarTools.has_tool,
    DriveTools.has_tool, ContactsTools.has_tool, DocsTools.has_tool,
    SheetsTools.has_tool, all_tool_names, name_in.
  destruct name as [| | |s| |]; try reflexivity.
  simpl.
  repeat match goal with
         | |- context [String.eqb s ?lit] =>
             destruct (String.eqb s lit); simpl; try reflexivity
         end.
Qed.

Lemma handle_list_tools_run request id w :
  dict_get request "id" JNull = Ok id ->
  MCPServer._handle_list_tools auth_manager request w
  = (Ok (JObj [ ("jsonrpc", JStr "2.0");
                ("id", id);
                ("result",
                 JObj [("tools", JArr (MCPServer.all_tools auth_manager))]) ]),
     w).
Proof.
  intros Hid. unfold MCPServer._handle_list_tools. unfold_m.
  rewrite Hid. reflexivity.
Qed.

(** C5. The answer to [tools/list] carries the seven modules'
    descriptor lists concatenated in registration order, so its length
    is the sum of theirs, and no two descriptors in it have the same
    name. *)
Theorem tools_list_catalogue message id w :
  dict_get message "method" JNull = Ok (JStr "tools/list") ->
  dict_get message "id" JNull = Ok id ->
  MCPServer._handle_request auth_manager message w
  = (Ok (Some (JObj [ ("jsonrpc", JStr "2.0");
                      ("id", id);
                      ("result",
                       JObj [("tools", JArr (MCPServer.all_tools auth_manager))]) ])),
     w)
  /\ MCPServer.all_tools auth_manager
     = AccountTools.get_tools ++ GmailTools.get_tools ++ CalendarTools.get_tools
         ++ DriveTools.get_tools ++ ContactsTools.get_tools
         ++ DocsTools.get_tools ++ SheetsTools.get_tools
  /\ length (MCPServer.all_tools auth_manager)
     = (length AccountTools.get_tools + length GmailTools.get_tools
        + length CalendarTools.get_tools + length DriveTools.get_tools
        + length ContactsTools.get_tools + length DocsTools.get_tools
        + length SheetsTools.get_tools)%nat
  /\ NoDup (map descriptor_name (MCPServer.all_tools auth_manager)).
Proof.
  intros Hmethod Hid. repeat split.
  - unfold MCPServer._handle_request. unfold_m. rewrite Hmethod. simpl.
    rewrite (handle_list_tools_run _ _ _ Hid). reflexivity.
  - rewrite catalogue_names. apply NoDup_map_JStr, all_tool_names_NoDup.
Qed.
End Dispatcher.

(** A name a module claims is one of the literals of its [has_tool]. *)
Lemma name_in_cases name names :
  name_in name names = true -> exists s, name = JStr s /\ In s names.
Proof.
  unfold name_in. destruct name as [| | |s| |]; try discriminate.
  intros Hin. apply existsb_exists in Hin. destruct Hin as (x & Hx & Heq).
  apply String.eqb_eq in Heq. subst x. eauto.
Qed.

(** Lists whose concatenation has no duplicates share no element. *)
Lemma NoDup_concat_unique (ls : list (list string)) :
  NoDup (concat ls) ->
  forall i j a b s,
    ls !! i = Some a -> ls !! j = Some b -> In s a -> In s b -> i = j.
Proof.
  induction ls as [|l ls IH]; intros Hnd i j a b s Hi Hj Ha Hb.
  - destruct i; discriminate Hi.
  - simpl in Hnd. apply NoDup_app in Hnd. destruct Hnd as (_ & Hdisjoint & Hrest).
    assert (Hlater : forall k c, ls !! k = Some c -> In s c -> s ∈ concat ls).
    { intros k c Hk Hc. apply list_elem_of_In, in_concat. exists c. split; [|exact Hc].
      apply list_elem_of_In. exact (list_elem_of_lookup_2 _ _ _ Hk). }
    destruct i as [|i], j as [|j]; simpl in Hi, Hj.
    + reflexivity.
    + injection Hi as <-. exfalso.
      apply (Hdisjoint s); [apply list_elem_of_In, Ha | exact (Hlater j b Hj Hb)].
    + injection Hj as <-. exfalso.
      apply (Hdisjoint s); [apply list_elem_of_In, Hb | exact (Hlater i a Hi Ha)].
    + f_equal. exact (IH Hrest i j a b s Hi Hj Ha Hb).
Qed.

Section Routing.
Context `{Lib : Library}.
Variable auth_manager : OAuthConfig.

Lemma module_tool_names_NoDup : NoDup (concat module_tool_names).
Proof.
  replace (concat module_tool_names) with all_tool_names by reflexivity.
  apply all_tool_names_NoDup.
Qed.

(** [has_tool] of the module at a position tests its list of names. *)
Lemma has_tool_at i m name :
  dispatch_order auth_manager !! i = Some m ->
  exists names,
    module_tool_names !! i = Some names
    /\ BaseTools.has_tool m name = name_in name names.
Proof.
  intros Hm. unfold dispatch_order, MCPServer.service_modules in Hm.
  destruct i as [|[|[|[|[|[|[|i]]]]]]]; simpl in Hm; try discriminate Hm;
    injection Hm as <-; eexists; split; reflexivity.
Qed.

(** No name is claimed by two modules. *)
Lemma claimed_once name i j m m' :
  dispatch_order auth_manager !! i = Some m ->
  dispatch_order auth_manager !! j = Some m' ->
  BaseTools.has_tool m name = true ->
  BaseTools.has_tool m' name = true ->
  i = j.
Proof.
  intros Hi Hj Hm Hm'.
  destruct (has_tool_at i m name Hi) as (a & Ha & Heq). rewrite Heq in Hm.
  destruct (has_tool_at j m' name Hj) as (b & Hb & Heq'). rewrite Heq' in Hm'.
  apply name_in_cases in Hm. destruct Hm as (s & -> & Hsa).
  apply name_in_cases in Hm'. destruct Hm' as (s' & Hs' & Hsb).
  injection Hs' as <-.
  exact (NoDup_concat_unique _ module_tool_names_NoDup i j a b s Ha Hb Hsa Hsb).
Qed.

(** The modules asked before position [i] do not claim a name that
    the module at [i] claims. *)
Ltac earlier_module_declines Hi Hclaims k :=
  match goal with
  | |- context [BaseTools.has_tool ?m' ?name] =>
      lazymatch goal with
      | H : BaseTools.has_tool m' name = _ |- _ => fail
      | _ =>
          let E := fresh "Hdeclines" in
          destruct (BaseTools.has_tool m' name) eqn:E;
          [ exfalso;
            assert (Hpos : dispatch_order auth_manager !! k = Some m') by reflexivity;
            pose proof (claimed_once name k _ m' _ Hpos Hi E Hclaims);
            discriminate
          | ]
      end
  end.

(** [_handle_call_tool] hands a claimed name to the module that claims
    it, and to no other. *)
Lemma call_tool_runs_owner request params tool_name arguments id i m w :
  dict_get request "params" (JObj []) = Ok params ->
  dict_get params "name" JNull = Ok tool_name ->
  dict_get params "arguments" (JObj []) = Ok arguments ->
  dict_get request "id" JNull = Ok id ->
  dispatch_order auth_manager !! i = Some m ->
  BaseTools.has_tool m tool_name = true ->
  MCPServer._handle_call_tool auth_manager request w
  = call_response id (BaseTools.handle_tool m tool_name arguments w).
Proof.
  intros Hparams Hname Hargs Hid Hm Hclaims.
  unfold MCPServer._handle_call_tool. unfold_m.
  rewrite Hparams, Hname, Hargs.
  assert (Hm0 := Hm). unfold dispatch_order, MCPServer.service_modules in Hm0.
  destruct i as [|[|[|[|[|[|[|i]]]]]]]; simpl in Hm0; try discriminate Hm0;
    injection Hm0 as Hm0; subst m.
  - rewrite Hclaims.
    destruct (BaseTools.handle_tool _ _ _ w) as [[result|e] w']; simpl;
      rewrite Hid; reflexivity.
  - earlier_module_declines Hm Hclaims 0%nat.
    rewrite Hclaims.
    destruct (BaseTools.handle_tool _ _ _ w) as [[result|e] w']; simpl;
      rewrite Hid; reflexivity.
  - earlier_module_declines Hm Hclaims 0%nat.
    earlier_module_declines Hm Hclaims 1%nat.
    rewrite Hclaims.
    destruct (BaseTools.handle_tool _ _ _ w) as [[result|e] w']; simpl;
      rewrite Hid; reflexivity.
  - earlier_module_declines Hm Hclaims 0%nat.
    earlier_module_declines Hm Hclaims 1%nat.
    earlier_module_declines Hm Hclaims 2%nat.
    rewrite Hclaims.
    destruct (BaseTools.handle_tool _ _ _ w) as [[result|e] w']; simpl;
      rewrite Hid; reflexivity.
  - earlier_module_declines Hm Hclaims 0%nat.
    earlier_module_declines Hm Hclaims 1%nat.
    earlier_module_declines Hm Hclaims 2%nat.
    earlier_module_declines Hm Hclaims 3%nat.
    rewrite Hclaims.
    destruct (BaseTools.handle_tool _ _ _ w) as [[result|e] w']; simpl;
      rewrite Hid; reflexivity.
  - earlier_module_declines Hm Hclaims 0%nat.
    earlier_module_declines Hm Hclaims 1%nat.
    earlier_module_declines Hm Hclaims 2%nat.
    earlier_module_declines Hm Hclaims 3%nat.
    earlier_module_declines Hm Hclaims 4%nat.
    rewrite Hclaims.
    destruct (BaseTools.handle_tool _ _ _ w) as [[result|e] w']; simpl;
      rewrite Hid; reflexivity.
  - earlier_module_declines Hm Hclaims 0%nat.
    earlier_module_declines Hm Hclaims 1%nat.
    earlier_module_declines Hm Hclaims 2%nat.
    earlier_module_declines Hm Hclaims 3%nat.
    earlier_module_declines Hm Hclaims 4%nat.
    earlier_module_declines Hm Hclaims 5%nat.
    rewrite Hclaims.
    destruct (BaseTools.handle_tool _ _ _ w) as [[result|e] w']; simpl;
      rewrite Hid; reflexivity.
Qed.
End Routing.

Section Protocol.
Context `{Lib : Library}.
Variable auth_manager : OAuthConfig.

(** C2, as the code has it.  A [tools/call] request whose tool name no
    module claims is answered, without any module being called, by an
    error response (not a result) that echoes the request id and has
    code -32603 and message "Unknown tool: <name>".  The code is no
    other than the one for a tool that fails: when the handler of the
    module that claims a name raises, the answer is an error response
    with code -32603 and the exception's text.  What a handler returns,
    the error texts it builds itself included, goes back under
    [result]. *)
Theorem unknown_tool_is_reported request params tool_name arguments id w :
  dict_get request "params" (JObj []) = Ok params ->
  dict_get params "name" JNull = Ok tool_name ->
  dict_get params "arguments" (JObj []) = Ok arguments ->
  dict_get request "id" JNull = Ok id ->
  ((forall m, In m (dispatch_order auth_manager) ->
              BaseTools.has_tool m tool_name = false) ->
   MCPServer._handle_call_tool auth_manager request w
   = (Ok (JObj [ ("jsonrpc", JStr "2.0");
                 ("id", id);
                 ("error",
                  JObj [ ("code", JNum (-32603));
                         ("message", JStr ("Unknown tool: " +:+ py_str tool_name)) ]) ]),
      w))
  /\ (forall m e w',
         In m (dispatch_order auth_manager) ->
         BaseTools.has_tool m tool_name = true ->
         BaseTools.handle_tool m tool_name arguments w = (Raise e, w') ->
         MCPServer._handle_call_tool auth_manager request w
         = (Ok (JObj [ ("jsonrpc", JStr "2.0");
                       ("id", id);
                       ("error",
                        JObj [ ("code", JNum (-32603));
                               ("message", JStr (exn_str e)) ]) ]),
            w'))
  /\ (forall m result w',
         In m (dispatch_order auth_manager) ->
         BaseTools.has_tool m tool_name = true ->
         BaseTools.handle_tool m tool_name arguments w = (Ok result, w') ->
         MCPServer._handle_call_tool auth_manager request w
         = (Ok (JObj [("jsonrpc", JStr "2.0"); ("id", id); ("result", result)]), w')).
Proof.
  intros Hparams Hname Hargs Hid. split; [|split].
  - intros Hunknown.
    unfold dispatch_order, MCPServer.service_modules in Hunknown.
    pose proof (Hunknown _ (or_introl eq_refl)) as Hmod.
    pose proof (Hunknown _ (or_intror (or_introl eq_refl))) as Hmod0.
    pose proof (Hunknown _ (or_intror (or_intror (or_introl eq_refl)))) as Hmod1.
    pose proof (Hunknown _ (or_intror (or_intror (or_intror (or_introl eq_refl)))))
      as Hmod2.
    pose proof (Hunknown _ (or_intror (or_intror (or_intror (or_intror
                              (or_introl eq_refl)))))) as Hmod3.
    pose proof (Hunknown _ (or_intror (or_intror (or_intror (or_intror (or_intror
                              (or_introl eq_refl))))))) as Hmod4.
    pose proof (Hunknown _ (or_intror (or_intror (or_intror (or_intror (or_intror
                              (or_intror (or_introl eq_refl)))))))) as Hmod5.
    simpl in Hmod, Hmod0, Hmod1, Hmod2, Hmod3, Hmod4, Hmod5.
    unfold MCPServer._handle_call_tool. unfold_m.
    rewrite Hparams, Hname, Hargs. simpl.
    rewrite Hmod, Hmod0, Hmod1, Hmod2, Hmod3, Hmod4, Hmod5. simpl.
    rewrite Hid. reflexivity.
  - intros m e w' Hin Hclaims Hraise.
    apply list_elem_of_In, list_elem_of_lookup_1 in Hin. destruct Hin as [i Hi].
    rewrite (call_tool_runs_owner auth_manager _ _ _ _ _ _ _ w
               Hparams Hname Hargs Hid Hi Hclaims).
    rewrite Hraise. reflexivity.
  - intros m result w' Hin Hclaims Hreturn.
    apply list_elem_of_In, list_elem_of_lookup_1 in Hin. destruct Hin as [i Hi].
    rewrite (call_tool_runs_owner auth_manager _ _ _ _ _ _ _ w
               Hparams Hname Hargs Hid Hi Hclaims).
    rewrite Hreturn. reflexivity.
Qed.

(** What one turn of the loop does with a line [json.loads] rejects. *)
Lemma serve_unparseable_line line e w :
  json_loads (str_strip line) = Raise e ->
  MCPServer.serve_line auth_manager line w
  = (Ok tt,
     {| fs := fs w; events := events w;
        stdout :=
          stdout w
          ++ [ json_dumps
                 (JObj [ ("jsonrpc", JStr "2.0");
                         ("id", JNull);
                         ("error",
                          match exn_type e with
                          | JSONDecodeError =>
                              JObj [ ("code", JNum (-32700));
                                     ("message", JStr ("Parse error: " +:+ exn_str e)) ]
                          | _ =>
                              JObj [ ("code", JNum (-32603));
                                     ("message",
                                      JStr ("Internal error: " +:+ exn_str e)) ]
                          end) ])
               +:+ LF ];
        now := now w; rng := rng w |}).
Proof.
  intros Hbad.
  unfold MCPServer.serve_line, MCPServer.send, json_load. unfold_m.
  rewrite Hbad. destruct (exn_type e); reflexivity.
Qed.

(** C7, as the code has it.  A line on which [json.loads] raises makes
    the server write exactly one response, with [id] null, and the loop
    goes on with the next line.  The error code is -32700, with the
    message "Parse error: ...", when the exception is a
    [JSONDecodeError]; any other exception of the decoder (the
    [RecursionError] of a line nested too deeply) gets code -32603 and
    "Internal error: ...". *)
Theorem unparseable_line_is_answered line rest e w :
  line <> "" ->
  json_loads (str_strip line) = Raise e ->
  (exn_type e = JSONDecodeError ->
   MCPServer.run auth_manager (line :: rest) w
   = MCPServer.run auth_manager rest
       {| fs := fs w; events := events w;
          stdout :=
            stdout w
            ++ [ json_dumps
                   (JObj [ ("jsonrpc", JStr "2.0");
                           ("id", JNull);
                           ("error",
                            JObj [ ("code", JNum (-32700));
                                   ("message",
                                    JStr ("Parse error: " +:+ exn_str e)) ]) ])
                 +:+ LF ];
          now := now w; rng := rng w |})
  /\ (exn_type e <> JSONDecodeError ->
      MCPServer.run auth_manager (line :: rest) w
      = MCPServer.run auth_manager rest
          {| fs := fs w; events := events w;
             stdout :=
               stdout w
               ++ [ json_dumps
                      (JObj [ ("jsonrpc", JStr "2.0");
                              ("id", JNull);
                              ("error",
                               JObj [ ("code", JNum (-32603));
                                      ("message",
                                       JStr ("Internal error: " +:+ exn_str e)) ]) ])
                    +:+ LF ];
             now := now w; rng := rng w |}).
Proof.
  intros Hline Hbad.
  assert (Hrun : MCPServer.run auth_manager (line :: rest) w
                 = MCPServer.run auth_manager rest
                     (snd (MCPServer.serve_line auth_manager line w))).
  { simpl. rewrite (eqb_empty_false _ Hline). unfold bind.
    rewrite (serve_unparseable_line _ _ _ Hbad). reflexivity. }
  rewrite Hrun, (serve_unparseable_line _ _ _ Hbad). simpl.
  split; intros Htype.
  - rewrite Htype. reflexivity.
  - destruct (exn_type e); try reflexivity. contradiction.
Qed.

(** The [tools/list] answer as it leaves the server. *)
Lemma tools_list_line line rest message id w :
  line <> "" ->
  json_loads (str_strip line) = Ok message ->
  dict_get message "method" JNull = Ok (JStr "tools/list") ->
  dict_get message "id" JNull = Ok id ->
  MCPServer.run auth_manager (line :: rest) w
  = MCPServer.run auth_manager rest
      (write_stdout
         (json_dumps
            (JObj [ ("jsonrpc", JStr "2.0");
                    ("id", id);
                    ("result",
                     JObj [("tools", JArr (MCPServer.all_tools auth_manager))]) ])
          +:+ LF)
         w).
Proof.
  intros Hline Hgood Hmethod Hid. simpl.
  rewrite (eqb_empty_false _ Hline).
  unfold MCPServer.serve_line, MCPServer.send, json_load. unfold_m.
  rewrite Hgood. simpl.
  unfold MCPServer._handle_request. unfold_m. rewrite Hmethod. simpl.
  rewrite (handle_list_tools_run _ _ _ _ Hid). reflexivity.
Qed.

(** One turn of the loop never raises. *)
Lemma serve_line_total line w :
  exists w', MCPServer.serve_line auth_manager line w = (Ok tt, w').
Proof.
  unfold MCPServer.serve_line, MCPServer.send. unfold_m.
  repeat (break_match; simpl in *; try congruence); subst; eauto;
    match goal with u : unit |- _ => destruct u end; eauto.
Qed.

End Protocol.

(** C2 fails as stated: the unknown name [nope] and a registered tool
    whose handler raises (its arguments are a list, not an object) are
    both answered with error code -32603. *)
Lemma unknown_tool_shares_error_code :
  (forall m, In m (dispatch_order (Lib := Sample.library) Sample.config) ->
             BaseTools.has_tool m (JStr "nope") = false)
  /\ fst (MCPServer._handle_call_tool (Lib := Sample.library) Sample.config
            (Sample.call "nope" (JObj [])) (Sample.world []))
     = Ok (JObj [ ("jsonrpc", JStr "2.0");
                  ("id", JNum 7);
                  ("error", JObj [ ("code", JNum (-32603));
                                   ("message", JStr "Unknown tool: nope") ]) ])
  /\ BaseTools.has_tool (GmailTools.tools (Lib := Sample.library))
       (JStr "search_workspace_emails") = true
  /\ fst (BaseTools.handle_tool (GmailTools.tools (Lib := Sample.library))
            (JStr "search_workspace_emails") (JArr []) (Sample.world []))
     = Raise (Exn AttributeError "'list' object has no attribute 'get'")
  /\ fst (MCPServer._handle_call_tool (Lib := Sample.library) Sample.config
            (Sample.call "search_workspace_emails" (JArr [])) (Sample.world []))
     = Ok (JObj [ ("jsonrpc", JStr "2.0");
                  ("id", JNum 7);
                  ("error",
                   JObj [ ("code", JNum (-32603));
                          ("message",
                           JStr "'list' object has no attribute 'get'") ]) ]).
Proof.
  split.
  - intros m Hin. simpl in Hin.
    repeat (destruct Hin as [<- | Hin]; [reflexivity|]). contradiction.
  - vm_compute. repeat split.
Qed.

Lemma unknown_tool_is_reported_witness :
  MCPServer._handle_call_tool (Lib := Sample.library) Sample.config
    (Sample.call "nope" (JObj [])) (Sample.world_with (Sample.record JNull))
  = (Ok (JObj [ ("jsonrpc", JStr "2.0");
                ("id", JNum 7);
                ("error", JObj [ ("code", JNum (-32603));
                                 ("message", JStr "Unknown tool: nope") ]) ]),
     Sample.world_with (Sample.record JNull))
  /\ MCPServer._handle_call_tool (Lib := Sample.library) Sample.config
       (Sample.call "search_workspace_emails" (JArr []))
       (Sample.world_with (Sample.record JNull))
     = (Ok (JObj [ ("jsonrpc", JStr "2.0");
                   ("id", JNum 7);
                   ("error",
                    JObj [ ("code", JNum (-32603));
                           ("message",
                            JStr "'list' object has no attribute 'get'") ]) ]),
        Sample.world_with (Sample.record JNull)).
Proof.
  split.
  - apply (proj1 (unknown_tool_is_reported (Lib := Sample.library) Sample.config
                    (Sample.call "nope" (JObj []))
                    (JObj [("name", JStr "nope"); ("arguments", JObj [])])
                    (JStr "nope") (JObj []) (JNum 7)
                    (Sample.world_with (Sample.record JNull))
                    eq_refl eq_refl eq_refl eq_refl)).
    intros m Hin. simpl in Hin.
    repeat (destruct Hin as [<- | Hin]; [reflexivity|]). contradiction.
  - apply (proj1 (proj2 (unknown_tool_is_reported (Lib := Sample.library) Sample.config
                           (Sample.call "search_workspace_emails" (JArr []))
                           (JObj [ ("name", JStr "search_workspace_emails");
                                   ("arguments", JArr []) ])
                           (JStr "search_workspace_emails") (JArr []) (JNum 7)
                           (Sample.world_with (Sample.record JNull))
                           eq_refl eq_refl eq_refl eq_refl))
                 (GmailTools.tools (Lib := Sample.library))
                 (Exn AttributeError "'list' object has no attribute 'get'")
                 (Sample.world_with (Sample.record JNull))).
    + simpl. tauto.
    + reflexivity.
    + reflexivity.
Defined.

Lemma tools_list_catalogue_witness :
  MCPServer._handle_request (Lib := Sample.library) Sample.config
    Sample.list_request (Sample.world [])
  = (Ok (Some (JObj [ ("jsonrpc", JStr "2.0");
                      ("id", JNum 1);
                      ("result",
                       JObj [("tools",
                              JArr (MCPServer.all_tools (Lib := Sample.library)
                                      Sample.config))]) ])),
     Sample.world [])
  /\ length (MCPServer.all_tools (Lib := Sample.library) Sample.config) = 35%nat.
Proof.
  split.
  - apply (tools_list_catalogue (Lib := Sample.library) Sample.config
             Sample.list_request (JNum 1) (Sample.world [])); reflexivity.
  - reflexivity.
Defined.

(** C7 fails as stated for a line nested too deeply: [json.loads]
    gives up with a [RecursionError], which is not a [JSONDecodeError],
    and the one response written has code -32603. *)
Lemma deep_line_is_an_internal_error :
  json_loads (Library := Sample.library)
    (str_strip (Library := Sample.library) (Sample.deep_line +:+ LF))
  = Raise (Exn RecursionError
               "maximum recursion depth exceeded while decoding a JSON array from a unicode string")
  /\ MCPServer.run (Lib := Sample.library) Sample.config
       [Sample.deep_line +:+ LF] (Sample.world [])
     = (Ok tt,
        {| fs := fs (Sample.world []); events := [];
           stdout :=
             [ Sample.dumps
                 (JObj [ ("jsonrpc", JStr "2.0");
                         ("id", JNull);
                         ("error",
                          JObj [ ("code", JNum (-32603));
                                 ("message",
                                  JStr "Internal error: maximum recursion depth exceeded while decoding a JSON array from a unicode string") ]) ])
               +:+ LF ];
           now := now (Sample.world []); rng := rng (Sample.world []) |}).
Proof.
  vm_compute. repeat split.
Qed.

Lemma unparseable_line_is_answered_witness :
  MCPServer.run (Lib := Sample.library) Sample.config
    ["{not json" +:+ LF] (Sample.world [])
  = (Ok tt,
     {| fs := fs (Sample.world []); events := [];
        stdout :=
          [ Sample.dumps
              (JObj [ ("jsonrpc", JStr "2.0");
                      ("id", JNull);
                      ("error",
                       JObj [ ("code", JNum (-32700));
                              ("message", JStr "Parse error: Expecting value") ]) ])
            +:+ LF ];
        now := now (Sample.world []); rng := rng (Sample.world []) |}).
Proof.
  apply (unparseable_line_is_answered (Lib := Sample.library) Sample.config
           ("{not json" +:+ LF) [] (Exn JSONDecodeError "Expecting value")
           (Sample.world [])).
  - discriminate.
  - vm_compute. reflexivity.
  - reflexivity.
Defined.

(* ===================================================================== *)
(** * Further properties *)
(* ===================================================================== *)

(** ** Strings and token file names *)

Lemma length_append (a b : string) :
  String.length (a +:+ b) = (String.length a + String.length b)%nat.
Proof. induction a as [|c a IH]; simpl; [reflexivity | rewrite IH; reflexivity]. Qed.

Lemma substring_prefix (a b : string) :
  String.substring 0 (String.length a) (a +:+ b) = a.
Proof. induction a as [|c a IH]; simpl; [destruct b; reflexivity | rewrite IH; reflexivity]. Qed.




Lemma append_inj_left (a b s : string) : a +:+ s = b +:+ s -> a = b.
Proof.
  intros Heq.
  assert (Hlen : String.length a = String.length b).
  { apply (f_equal String.length) in Heq. rewrite !length_append in Heq. lia. }
  rewrite <- (substring_prefix a s), <- (substring_prefix b s), Heq, Hlen.
  reflexivity.
Qed.

Lemma token_file_inj (email email' : string) :
  AuthManager.token_file email = AuthManager.token_file email' -> email = email'.
Proof. apply append_inj_left. Qed.








(** ** More on the credential store *)

Section CredentialStoreMore.
Context `{Lib : Library}.

Lemma load_tokens_keeps_files email w :
  fs (snd (AuthManager._load_tokens email w)) = fs w.
Proof.
  unfold AuthManager._load_tokens. unfold_m.
  repeat (break_match; simpl in *; simplify_eq); reflexivity.
Qed.

Lemma is_authenticated_run email w :
  exists_error w (AuthManager.token_file email) = None ->
  AuthManager.is_authenticated email w
  = (Ok (bool_decide (is_Some (fs w !! path_key (AuthManager.token_file email)))), w).
Proof.
  intros Hexists. unfold AuthManager.is_authenticated, file_exists.
  rewrite Hexists. reflexivity.
Qed.

(** X1. [_load_tokens] raises in one case only: when the [exists()]
    test in front of its [try] raises, and then that exception leaves
    the function with nothing opened and nothing printed.  Otherwise
    it returns, whatever the token file holds.  It never changes the
    token directory. *)
Theorem load_tokens_raises_only_in_exists email w :
  (exists_error w (AuthManager.token_file email) = None ->
   exists creds, fst (AuthManager._load_tokens email w) = Ok creds)
  /\ (forall e, exists_error w (AuthManager.token_file email) = Some e ->
                AuthManager._load_tokens email w = (Raise e, w))
  /\ fs (snd (AuthManager._load_tokens email w)) = fs w.
Proof.
  split; [|split].
  - intros Hexists. unfold AuthManager._load_tokens. unfold_m. rewrite Hexists.
    repeat (break_match; simpl in *; try congruence); eauto.
  - intros e Hexists. unfold AuthManager._load_tokens. unfold_m.
    rewrite Hexists. reflexivity.
  - apply load_tokens_keeps_files.
Qed.

(** X2. A token file on which [json.load] raises: [_load_tokens] opens
    it, prints one diagnostic line and returns absent, so the account
    gets no handle and no library is called; [is_authenticated], which
    only looks for the file, still says yes. *)
Theorem unparseable_token_file email service_name version w text e :
  exists_error w (AuthManager.token_file email) = None ->
  open_error w (AuthManager.token_file email) = None ->
  fs w !! path_key (AuthManager.token_file email) = Some text ->
  json_loads text = Raise e ->
  AuthManager._load_tokens email w
  = (Ok None,
     {| fs := fs w;
        events := events w ++ [EvOpenRead (AuthManager.token_file email)];
        stdout := stdout w ++ ["Failed to load tokens: " +:+ exn_str e +:+ LF];
        now := now w; rng := rng w |})
  /\ AuthManager.get_authenticated_client email service_name version w
     = (Ok None,
        {| fs := fs w;
           events := events w ++ [EvOpenRead (AuthManager.token_file email)];
           stdout := stdout w ++ ["Failed to load tokens: " +:+ exn_str e +:+ LF];
           now := now w; rng := rng w |})
  /\ AuthManager.is_authenticated email w = (Ok true, w).
Proof.
  intros Hexists Hopen Hfile Hbad.
  assert (Hload : AuthManager._load_tokens email w
                  = (Ok None,
                     {| fs := fs w;
                        events := events w ++ [EvOpenRead (AuthManager.token_file email)];
                        stdout := stdout w
                                  ++ ["Failed to load tokens: " +:+ exn_str e +:+ LF];
                        now := now w; rng := rng w |})).
  { unfold AuthManager._load_tokens, json_load. unfold_m. rewrite Hexists, Hfile.
    rewrite bool_decide_eq_true_2 by eauto. simpl.
    rewrite Hopen, Hfile, Hbad. reflexivity. }
  repeat split.
  - exact Hload.
  - unfold AuthManager.get_authenticated_client. unfold_m. rewrite Hload. reflexivity.
  - rewrite (is_authenticated_run _ _ Hexists). rewrite Hfile.
    rewrite bool_decide_eq_true_2 by eauto. reflexivity.
Qed.

(** X3. Keys missing from a token file are not an error: each absent
    key loads as [None], and a file without an expiry (or with a falsy
    one) loads as a record that never expires. *)
Theorem missing_keys_load_as_none email w text fields :
  exists_error w (AuthManager.token_file email) = None ->
  open_error w (AuthManager.token_file email) = None ->
  fs w !! path_key (AuthManager.token_file email) = Some text ->
  json_loads text = Ok (JObj fields) ->
  truthy (default JNull (lookup_key "expiry" fields)) = false ->
  fst (AuthManager._load_tokens email w)
  = Ok (Some {| Credentials.token := default JNull (lookup_key "token" fields);
                Credentials.refresh_token :=
                  default JNull (lookup_key "refresh_token" fields);
                Credentials.token_uri := default JNull (lookup_key "token_uri" fields);
                Credentials.client_id := default JNull (lookup_key "client_id" fields);
                Credentials.client_secret :=
                  default JNull (lookup_key "client_secret" fields);
                Credentials.scopes := default JNull (lookup_key "scopes" fields);
                Credentials.expiry := None |})
  /\ AuthManager.expired (now w)
       {| Credentials.token := default JNull (lookup_key "token" fields);
          Credentials.refresh_token :=
            default JNull (lookup_key "refresh_token" fields);
          Credentials.token_uri := default JNull (lookup_key "token_uri" fields);
          Credentials.client_id := default JNull (lookup_key "client_id" fields);
          Credentials.client_secret :=
            default JNull (lookup_key "client_secret" fields);
          Credentials.scopes := default JNull (lookup_key "scopes" fields);
          Credentials.expiry := None |}
     = Ok false.
Proof.
  intros Hexists Hopen Hfile Hjson Hexpiry. split; [|reflexivity].
  unfold AuthManager._load_tokens, json_load, dict_get. unfold_m.
  rewrite Hexists, Hfile.
  rewrite bool_decide_eq_true_2 by eauto. simpl.
  rewrite Hopen, Hfile, Hjson. simpl.
  unfold default, id in *.
  destruct (lookup_key "expiry" fields) as [x|]; simpl in *.
  - rewrite Hexpiry. reflexivity.
  - reflexivity.
Qed.

(** X4. An expiry that is present but is not a string
    [datetime.fromisoformat] accepts makes the whole record unreadable:
    [_load_tokens] returns absent. *)
Theorem unreadable_expiry email w text data expiry :
  exists_error w (AuthManager.token_file email) = None ->
  open_error w (AuthManager.token_file email) = None ->
  fs w !! path_key (AuthManager.token_file email) = Some text ->
  json_loads text = Ok data ->
  dict_get data "expiry" JNull = Ok expiry ->
  truthy expiry = true ->
  (forall s d, expiry = JStr s -> fromisoformat s = Some d -> False) ->
  fst (AuthManager._load_tokens email w) = Ok None
  /\ events (snd (AuthManager._load_tokens email w))
     = events w ++ [EvOpenRead (AuthManager.token_file email)]
  /\ exists message,
       stdout (snd (AuthManager._load_tokens email w))
       = stdout w ++ ["Failed to load tokens: " +:+ message +:+ LF].
Proof.
  intros Hexists Hopen Hfile Hjson Hget Htruthy Hbad.
  unfold AuthManager._load_tokens, json_load. unfold_m.
  rewrite Hexists, Hfile.
  rewrite bool_decide_eq_true_2 by eauto. simpl.
  rewrite Hopen, Hfile, Hjson. simpl.
  destruct data as [| | | | |fields]; try discriminate Hget.
  simpl in Hget. injection Hget as Hget. simpl. rewrite Hget, Htruthy. simpl.
  unfold AuthManager.parse_expiry.
  destruct expiry as [| | |s| |]; simpl;
    try (split; [reflexivity | split; [reflexivity | eexists; reflexivity]]).
  destruct (fromisoformat s) as [d|] eqn:Hiso; simpl;
    [|split; [reflexivity | split; [reflexivity | eexists; reflexivity]]].
  exfalso. exact (Hbad s d eq_refl Hiso).
Qed.

(** X5. [remove_account] when the file system answers: with a token
    file it deletes that file and nothing else, without one it does
    nothing, and either way it returns [True] and prints nothing.  If
    the file is there and [unlink] raises, the file stays, the failure
    is printed and the answer is [False]. *)
Theorem remove_account_deletes_one_file email w :
  exists_error w (AuthManager.token_file email) = None ->
  (unlink_error w (AuthManager.token_file email) = None ->
   AuthManager.remove_account email w
   = (Ok true,
      {| fs := delete (path_key (AuthManager.token_file email)) (fs w);
         events := events w; stdout := stdout w; now := now w; rng := rng w |}))
  /\ (forall e text,
         unlink_error w (AuthManager.token_file email) = Some e ->
         fs w !! path_key (AuthManager.token_file email) = Some text ->
         AuthManager.remove_account email w
         = (Ok false,
            {| fs := fs w; events := events w;
               stdout := stdout w ++ ["Failed to remove account: " +:+ exn_str e +:+ LF];
               now := now w; rng := rng w |})).
Proof.
  intros Hexists. split.
  - intros Hunlink. unfold AuthManager.remove_account. unfold_m.
    rewrite Hexists.
    destruct (fs w !! path_key (AuthManager.token_file email)) eqn:Hfile.
    + rewrite bool_decide_eq_true_2 by eauto. simpl.
      rewrite Hunlink, Hfile. reflexivity.
    + rewrite bool_decide_eq_false_2 by (intros [x Hx]; discriminate). simpl.
      rewrite (delete_id _ _ Hfile). destruct w; reflexivity.
  - intros e text Hunlink Hfile. unfold AuthManager.remove_account. unfold_m.
    rewrite Hexists, Hfile.
    rewrite bool_decide_eq_true_2 by eauto. simpl.
    rewrite Hunlink. reflexivity.
Qed.
End CredentialStoreMore.

Lemma load_tokens_raises_only_in_exists_witness :
  AuthManager._load_tokens (Lib := Sample.library) Sample.long_identity (Sample.world [])
  = (Raise (Exn OSError ("[Errno 36] File name too long: '"
                         +:+ Sample.long_identity +:+ ".json'")),
     Sample.world []).
Proof.
  apply (proj1 (proj2 (load_tokens_raises_only_in_exists (Lib := Sample.library)
                         Sample.long_identity (Sample.world [])))).
  vm_compute. reflexivity.
Defined.

Lemma unparseable_token_file_witness :
  AuthManager.get_authenticated_client (Lib := Sample.library) "a@x.com" "gmail" "v1"
    (Sample.world [("a@x.com.json", "not json")])
  = (Ok None,
     {| fs := fs (Sample.world [("a@x.com.json", "not json")]);
        events := [EvOpenRead "a@x.com.json"];
        stdout := ["Failed to load tokens: Expecting value" +:+ LF];
        now := now (Sample.world [("a@x.com.json", "not json")]);
        rng := rng (Sample.world [("a@x.com.json", "not json")]) |}).
Proof.
  apply (unparseable_token_file (Lib := Sample.library) "a@x.com" "gmail" "v1"
           (Sample.world [("a@x.com.json", "not json")]) "not json"
           (Exn JSONDecodeError "Expecting value")).
  - vm_compute. reflexivity.
  - vm_compute. reflexivity.
  - vm_compute. reflexivity.
  - vm_compute. reflexivity.
Defined.

Lemma missing_keys_load_as_none_witness :
  fst (AuthManager._load_tokens (Lib := Sample.library) "a@x.com"
         (Sample.world [("a@x.com.json", "{}")]))
  = Ok (Some (Credentials.Make JNull JNull JNull JNull JNull JNull None)).
Proof.
  apply (missing_keys_load_as_none (Lib := Sample.library) "a@x.com"
           (Sample.world [("a@x.com.json", "{}")]) "{}" []).
  - vm_compute. reflexivity.
  - vm_compute. reflexivity.
  - vm_compute. reflexivity.
  - vm_compute. reflexivity.
  - reflexivity.
Defined.

Lemma unreadable_expiry_witness :
  fst (AuthManager._load_tokens (Lib := Sample.library) "a@x.com"
         (Sample.world
            [("a@x.com.json",
              Sample.dumps (JObj [("token", JStr "ya29.old");
                                  ("expiry", JStr "tomorrow")]))]))
  = Ok None.
Proof.
  apply (unreadable_expiry (Lib := Sample.library) "a@x.com"
           (Sample.world
              [("a@x.com.json",
                Sample.dumps (JObj [("token", JStr "ya29.old");
                                    ("expiry", JStr "tomorrow")]))])
           (Sample.dumps (JObj [("token", JStr "ya29.old");
                                ("expiry", JStr "tomorrow")]))
           (JObj [("token", JStr "ya29.old"); ("expiry", JStr "tomorrow")])
           (JStr "tomorrow")).
  - vm_compute. reflexivity.
  - vm_compute. reflexivity.
  - vm_compute. reflexivity.
  - vm_compute. reflexivity.
  - reflexivity.
  - reflexivity.
  - intros s d Hs. injection Hs as <-. vm_compute. discriminate.
Defined.

Lemma remove_account_deletes_one_file_witness :
  AuthManager.remove_account (Lib := Sample.library) "a@x.com"
    (Sample.world_with (Sample.record JNull))
  = (Ok true,
     {| fs := delete "a@x.com.json" (fs (Sample.world_with (Sample.record JNull)));
        events := []; stdout := [];
        now := now (Sample.world_with (Sample.record JNull));
        rng := rng (Sample.world_with (Sample.record JNull)) |}).
Proof.
  apply (remove_account_deletes_one_file (Lib := Sample.library) "a@x.com"
           (Sample.world_with (Sample.record JNull))).
  - vm_compute. reflexivity.
  - vm_compute. reflexivity.
Defined.

(** ** [list_accounts] against the token files *)

Section Listing.
Context `{Lib : Library}.



End Listing.


(** ** More on handle minting *)

Section HandleMintingMore.
Context `{Lib : Library}.

(** Whatever happens, the files of other accounts stay as they are. *)
Lemma get_client_keeps_other_files email service_name version w key :
  key <> path_key (AuthManager.token_file email) ->
  fs (snd (AuthManager.get_authenticated_client email service_name version w)) !! key
  = fs w !! key.
Proof.
  intros Hname.
  unfold AuthManager.get_authenticated_client. unfold bind at 1. unfold try_except.
  pose proof (load_tokens_keeps_files email w) as Hkeep.
  destruct (AuthManager._load_tokens email w) as [[[creds|]|e] w1]; simpl in *;
    try (unfold_m; simpl; rewrite Hkeep; reflexivity).
  unfold AuthManager.do_refresh, AuthManager.build, AuthManager._save_tokens.
  unfold_m.
  repeat (break_match; unfold set_fs, log_event, write_stdout in *;
          simpl in *; simplify_eq);
    simpl; rewrite ?Hkeep; simpl; rewrite ?lookup_insert_ne by congruence;
    reflexivity.
Qed.

(** X7. A stored record that is not expired - it has no expiry, or its
    naive expiry lies more than the refresh threshold ahead - is used as
    it is, refresh token or not: no refresh call, no write to the token
    files, and the handle is built from the stored credentials (absent,
    with one diagnostic line, only if [build] raises). *)
Theorem fresh_token_is_not_refreshed email service_name version w creds :
  fst (AuthManager._load_tokens email w) = Ok (Some creds) ->
  (Credentials.expiry creds = None
   \/ exists d, Credentials.expiry creds = Some (Naive d)
                /\ (now w < d - REFRESH_THRESHOLD)%Z) ->
  AuthManager.get_authenticated_client email service_name version w
  = match build_error (events w ++ [EvOpenRead (AuthManager.token_file email)])
                      service_name version creds with
    | None =>
        (Ok (Some (MkHandle service_name version creds)),
         {| fs := fs w;
            events := events w ++ [ EvOpenRead (AuthManager.token_file email);
                                    EvBuild service_name version creds ];
            stdout := stdout w; now := now w; rng := rng w |})
    | Some e =>
        (Ok None,
         {| fs := fs w;
            events := events w ++ [ EvOpenRead (AuthManager.token_file email);
                                    EvBuild service_name version creds ];
            stdout := stdout w ++ [ "Failed to get authenticated client: "
                                    +:+ exn_str e +:+ LF ];
            now := now w; rng := rng w |})
    end.
Proof.
  intros Hload Hfresh.
  rewrite (get_client_without_refresh email service_name version w creds false Hload).
  - destruct (build_error _ _ _ _); unfold log_event, write_stdout; simpl;
      rewrite <- app_assoc; reflexivity.
  - unfold AuthManager.expired.
    destruct Hfresh as [-> | (d & -> & Hahead)]; [reflexivity|].
    rewrite (proj2 (Z.leb_gt _ _)) by lia. reflexivity.
  - reflexivity.
Qed.


(** X9. [get_authenticated_client] never raises, not even when the
    file system does, and the only file it can change is the token
    file of the account it is asked about. *)
Theorem get_authenticated_client_is_contained email service_name version w key :
  (exists handle,
      fst (AuthManager.get_authenticated_client email service_name version w) = Ok handle)
  /\ (key <> path_key (AuthManager.token_file email) ->
      fs (snd (AuthManager.get_authenticated_client email service_name version w))
        !! key
      = fs w !! key).
Proof.
  split.
  - destruct (get_authenticated_client_total email service_name version w)
      as (r & w' & Hrun).
    exists r. rewrite Hrun. reflexivity.
  - apply get_client_keeps_other_files.
Qed.

End HandleMintingMore.

Lemma fresh_token_is_not_refreshed_witness :
  AuthManager.get_authenticated_client (Lib := Sample.library) "a@x.com" "gmail" "v1"
    (Sample.world_with
       (Credentials.set_expiry (Sample.record (JStr "1//r"))
          (Some (Naive 1800000000000000))))
  = (Ok (Some (MkHandle "gmail" "v1"
                 (Credentials.set_expiry (Sample.record (JStr "1//r"))
                    (Some (Naive 1800000000000000))))),
     {| fs := fs (Sample.world_with
                    (Credentials.set_expiry (Sample.record (JStr "1//r"))
                       (Some (Naive 1800000000000000))));
        events := [ EvOpenRead "a@x.com.json";
                    EvBuild "gmail" "v1"
                      (Credentials.set_expiry (Sample.record (JStr "1//r"))
                         (Some (Naive 1800000000000000))) ];
        stdout := []; now := 1700003600000000; rng := 0 |}).
Proof.
  apply (fresh_token_is_not_refreshed (Lib := Sample.library) "a@x.com" "gmail" "v1"
           (Sample.world_with
              (Credentials.set_expiry (Sample.record (JStr "1//r"))
                 (Some (Naive 1800000000000000))))
           (Credentials.set_expiry (Sample.record (JStr "1//r"))
              (Some (Naive 1800000000000000)))).
  - vm_compute. reflexivity.
  - right. exists 1800000000000000%Z. split; [reflexivity | vm_compute; reflexivity].
Defined.


Lemma get_authenticated_client_is_contained_witness :
  fs (snd (AuthManager.get_authenticated_client (Lib := Sample.library)
             "a@x.com" "gmail" "v1"
             (Sample.world_with (Sample.record (JStr "1//r")))))
    !! "b@x.com.json"
  = fs (Sample.world_with (Sample.record (JStr "1//r"))) !! "b@x.com.json".
Proof.
  apply (get_authenticated_client_is_contained (Lib := Sample.library)
           "a@x.com" "gmail" "v1"
           (Sample.world_with (Sample.record (JStr "1//r"))) "b@x.com.json").
  discriminate.
Defined.


(** ** More on the authorization callback *)

Section AuthorizationMore.
Context `{Lib : Library}.
Variable self : OAuthConfig.

(** X11. [handle_oauth_callback] never raises.  When the code exchange
    fails, the answer carries the exception's text and nothing else
    has happened: no client is built, no userinfo is asked for, no
    file is written.  When the userinfo answer has no email, the
    answer says so and the token directory is as before. *)
Theorem callback_failures_are_reported code state w :
  (exists result,
      fst (AuthManager.handle_oauth_callback self code state w) = Ok result)
  /\ (forall e,
         fetch_token (events w) self AuthManager.scopes code = Raise e ->
         AuthManager.handle_oauth_callback self code state w
         = (Ok (JObj [("success", JBool false); ("error", JStr (exn_str e))]),
            {| fs := fs w; events := events w ++ [EvFetchToken code];
               stdout := stdout w; now := now w; rng := rng w |}))
  /\ (forall creds user_info email,
         fetch_token (events w) self AuthManager.scopes code = Ok creds ->
         build_error (events w ++ [EvFetchToken code]) "oauth2" "v2" creds = None ->
         userinfo (events w ++ [EvFetchToken code; EvBuild "oauth2" "v2" creds])
                  (MkHandle "oauth2" "v2" creds) = Ok user_info ->
         dict_get user_info "email" JNull = Ok email ->
         truthy email = false ->
         AuthManager.handle_oauth_callback self code state w
         = (Ok (JObj [ ("success", JBool false);
                       ("error", JStr "Could not retrieve user email") ]),
            {| fs := fs w;
               events := events w ++ [ EvFetchToken code;
                                       EvBuild "oauth2" "v2" creds;
                                       EvUserinfo creds ];
               stdout := stdout w; now := now w; rng := rng w |})).
Proof.
  split; [|split].
  - unfold AuthManager.handle_oauth_callback, AuthManager.do_fetch_token,
      AuthManager.build, AuthManager.do_userinfo, AuthManager._save_tokens.
    unfold_m. simpl.
    repeat (break_match; simpl in *; simplify_eq); eexists; reflexivity.
  - intros e Hfetch.
    unfold AuthManager.handle_oauth_callback, AuthManager.do_fetch_token.
    unfold_m. simpl. rewrite Hfetch. reflexivity.
  - intros creds user_info email Hfetch Hbuild Hinfo Hemail Hfalsy.
    unfold AuthManager.handle_oauth_callback, AuthManager.do_fetch_token,
      AuthManager.build, AuthManager.do_userinfo.
    unfold_m. simpl. rewrite Hfetch. simpl. rewrite Hbuild. simpl.
    rewrite <- app_assoc. simpl. rewrite Hinfo. simpl.
    rewrite Hemail, Hfalsy. simpl.
    unfold log_event. simpl. rewrite <- !app_assoc. reflexivity.
Qed.

(** X12. After a callback that went through, the granted credentials
    are stored under the address the userinfo endpoint reports: the
    answer names that address, the account is authenticated, and its
    record loads as the credentials the code was exchanged for.
    Assumed: the write goes through, the file written can be looked up
    and opened, and the library round trips hold for the record. *)
Theorem callback_authenticates_account code state w creds user_info email :
  fetch_token (events w) self AuthManager.scopes code = Ok creds ->
  build_error (events w ++ [EvFetchToken code]) "oauth2" "v2" creds = None ->
  userinfo (events w ++ [EvFetchToken code; EvBuild "oauth2" "v2" creds])
           (MkHandle "oauth2" "v2" creds) = Ok user_info ->
  dict_get user_info "email" JNull = Ok email ->
  truthy email = true ->
  (forall w0, write_error w0 (AuthManager.token_file (py_str email))
                (json_dumps (AuthManager.token_data creds)) = None) ->
  (forall w0, exists_error w0 (AuthManager.token_file (py_str email)) = None) ->
  (forall w0, open_error w0 (AuthManager.token_file (py_str email)) = None) ->
  json_loads (json_dumps (AuthManager.token_data creds))
    = Ok (AuthManager.token_data creds) ->
  (forall d, Credentials.expiry creds = Some d ->
             isoformat d <> "" /\ fromisoformat (isoformat d) = Some d) ->
  let w' := snd (AuthManager.handle_oauth_callback self code state w) in
  fst (AuthManager.handle_oauth_callback self code state w)
  = Ok (JObj [("success", JBool true); ("email", email)])
  /\ fs w' = <[path_key (AuthManager.token_file (py_str email)) :=
                 json_dumps (AuthManager.token_data creds)]> (fs w)
  /\ fst (AuthManager.is_authenticated (py_str email) w') = Ok true
  /\ fst (AuthManager._load_tokens (py_str email) w') = Ok (Some creds).
Proof.
  intros Hfetch Hbuild Hinfo Hemail Htruthy Hwrite Hexists Hopen Hjson Hiso w'.
  assert (Hrun : AuthManager.handle_oauth_callback self code state w
                 = (Ok (JObj [("success", JBool true); ("email", email)]),
                    {| fs := <[path_key (AuthManager.token_file (py_str email)) :=
                                 json_dumps (AuthManager.token_data creds)]> (fs w);
                       events := events w ++ [ EvFetchToken code;
                                               EvBuild "oauth2" "v2" creds;
                                               EvUserinfo creds ];
                       stdout := stdout w; now := now w; rng := rng w |})).
  { unfold AuthManager.handle_oauth_callback, AuthManager.do_fetch_token,
      AuthManager.build, AuthManager.do_userinfo, AuthManager._save_tokens.
    unfold_m. simpl. rewrite Hfetch. simpl. rewrite Hbuild. simpl.
    rewrite <- app_assoc. simpl. rewrite Hinfo. simpl.
    rewrite Hemail, Htruthy. simpl. rewrite Hwrite. simpl.
    unfold set_fs, log_event. simpl. rewrite <- !app_assoc. reflexivity. }
  subst w'. rewrite Hrun. simpl.
  repeat split.
  - rewrite (is_authenticated_run _ _ (Hexists _)). simpl.
    rewrite lookup_insert_eq.
    rewrite bool_decide_eq_true_2 by eauto. reflexivity.
  - apply load_tokens_of_saved; auto. simpl. apply lookup_insert_eq.
Qed.
End AuthorizationMore.

Lemma callback_failures_are_reported_witness :
  AuthManager.handle_oauth_callback (Lib := Sample.library) Sample.config
    "" "any-state" (Sample.world [])
  = (Ok (JObj [ ("success", JBool false);
                ("error", JStr "invalid_grant: Bad Request") ]),
     {| fs := fs (Sample.world []); events := [EvFetchToken ""];
        stdout := []; now := now (Sample.world []); rng := rng (Sample.world []) |}).
Proof.
  apply (proj1 (proj2 (callback_failures_are_reported (Lib := Sample.library)
                         Sample.config "" "any-state" (Sample.world [])))
               (Exn LibraryError "invalid_grant: Bad Request")).
  reflexivity.
Defined.

Lemma callback_authenticates_account_witness :
  fst (AuthManager.handle_oauth_callback (Lib := Sample.library)
         Sample.config "c0de" "any-state" (Sample.world []))
  = Ok (JObj [("success", JBool true); ("email", JStr "a@x.com")])
  /\ fs (snd (AuthManager.handle_oauth_callback (Lib := Sample.library)
                Sample.config "c0de" "any-state" (Sample.world [])))
     = <["a@x.com.json" :=
           Sample.dumps (AuthManager.token_data (Lib := Sample.library)
                           (Sample.granted Sample.config AuthManager.scopes "c0de"))]>
         (fs (Sample.world []))
  /\ fst (AuthManager.is_authenticated (Lib := Sample.library) "a@x.com"
            (snd (AuthManager.handle_oauth_callback (Lib := Sample.library)
                    Sample.config "c0de" "any-state" (Sample.world []))))
     = Ok true
  /\ fst (AuthManager._load_tokens (Lib := Sample.library) "a@x.com"
            (snd (AuthManager.handle_oauth_callback (Lib := Sample.library)
                    Sample.config "c0de" "any-state" (Sample.world []))))
     = Ok (Some (Sample.granted Sample.config AuthManager.scopes "c0de")).
Proof.
  apply (callback_authenticates_account (Lib := Sample.library) Sample.config
           "c0de" "any-state" (Sample.world [])
           (Sample.granted Sample.config AuthManager.scopes "c0de")
           (JObj [("email", JStr "a@x.com")]) (JStr "a@x.com")).
  - reflexivity.
  - reflexivity.
  - reflexivity.
  - reflexivity.
  - reflexivity.
  - intros w0. vm_compute. reflexivity.
  - intros w0. vm_compute. reflexivity.
  - intros w0. vm_compute. reflexivity.
  - vm_compute. reflexivity.
  - intros d Hd. injection Hd as <-. vm_compute. split; [discriminate | reflexivity].
Defined.

(** ** More on the capability modules *)

Ltac unfold_handle_tool :=
  unfold GmailTools.handle_tool, CalendarTools.handle_tool, DriveTools.handle_tool,
    ContactsTools.handle_tool, DocsTools.handle_tool, SheetsTools.handle_tool.

Ltac client_is_total :=
  match goal with
  | |- context [AuthManager.get_authenticated_client ?e ?s ?v ?w] =>
      let r := fresh "service" in
      let w' := fresh "w" in
      destruct (get_authenticated_client_total e s v w) as (r & w' & ->)
  end.

Section ToolsMore.
Context `{Lib : Library}.
Variable auth_manager : OAuthConfig.

(** X13. A service module's [handle_tool] raises in one case only: when
    the arguments are not an object, the lookup of [email] raises
    [AttributeError] before anything else happens.  With an arguments
    object it always returns a result, whatever the name, the account
    and the answers of the libraries and the file system. *)
Theorem service_tools_raise_only_on_non_object_arguments m name args w :
  In m MCPServer.service_modules ->
  match args with
  | JObj _ => exists result w', BaseTools.handle_tool m name args w = (Ok result, w')
  | _ =>
      BaseTools.handle_tool m name args w
      = (Raise (Exn AttributeError
                    ("'" +:+ type_name args +:+ "' object has no attribute 'get'")), w)
  end.
Proof.
  intros Hin. simpl in Hin.
  destruct args as [| | | | |fields];
    try (repeat (destruct Hin as [<- | Hin]; [reflexivity|]); contradiction).
  repeat (destruct Hin as [<- | Hin];
          [ simpl; unfold_handle_tool; unfold dict_get; unfold_m;
            destruct (truthy _); simpl; [|eauto];
            repeat client_is_total; unfold do_execute;
            repeat (break_match; simpl in *; simplify_eq); eauto | ]).
  contradiction.
Qed.


(** X15. The account module is different: for its three tools
    [handle_tool] never raises, even when the arguments are not an
    object or the file system fails (the failure comes back as a
    result); for any other name it raises [ValueError], where a service
    module would return an error result. *)
Theorem account_tools_raise_only_on_unknown_names name args w :
  (AccountTools.has_tool name = true ->
   exists result w',
     AccountTools.handle_tool auth_manager name args w = (Ok result, w'))
  /\ (AccountTools.has_tool name = false ->
      AccountTools.handle_tool auth_manager name args w
      = (Raise (Exn ValueError ("Unknown tool: " +:+ py_str name)), w)).
Proof.
  unfold AccountTools.has_tool, AccountTools.handle_tool, AccountTools.tool_names,
    name_in.
  destruct name as [| | |s| |]; try (split; [discriminate | reflexivity]).
  simpl.
  destruct (String.eqb s "list_workspace_accounts").
  { split; [intros _ | discriminate].
    unfold AccountTools._list_accounts, AuthManager.list_accounts,
      AuthManager.glob_json. unfold_m. simpl.
    repeat (break_match; simpl in *; simplify_eq); eauto. }
  destruct (String.eqb s "authenticate_workspace_account").
  { split; [intros _ | discriminate].
    unfold AccountTools._authenticate_account, AuthManager.get_auth_url. unfold_m.
    repeat (break_match; simpl in *; simplify_eq); eauto. }
  destruct (String.eqb s "remove_workspace_account").
  { split; [intros _ | discriminate].
    unfold AccountTools._remove_account, AuthManager.remove_account. unfold_m.
    repeat (break_match; simpl in *; simplify_eq); eauto. }
  simpl. split; [discriminate | reflexivity].
Qed.
End ToolsMore.

Lemma service_tools_raise_only_on_non_object_arguments_witness :
  BaseTools.handle_tool (DocsTools.tools (Lib := Sample.library))
    (JStr "get_workspace_document") (JArr [JStr "a@x.com"])
    (Sample.world_with (Sample.record JNull))
  = (Raise (Exn AttributeError "'list' object has no attribute 'get'"),
     Sample.world_with (Sample.record JNull)).
Proof.
  apply (service_tools_raise_only_on_non_object_arguments (Lib := Sample.library)
           (DocsTools.tools (Lib := Sample.library))
           (JStr "get_workspace_document") (JArr [JStr "a@x.com"])
           (Sample.world_with (Sample.record JNull))).
  simpl. tauto.
Defined.


Lemma account_tools_raise_only_on_unknown_names_witness :
  AccountTools.handle_tool (Lib := Sample.library) Sample.config
    (JStr "search_workspace_emails") (JObj []) (Sample.world [])
  = (Raise (Exn ValueError "Unknown tool: search_workspace_emails"), Sample.world []).
Proof.
  apply (account_tools_raise_only_on_unknown_names (Lib := Sample.library)
           Sample.config (JStr "search_workspace_emails") (JObj []) (Sample.world [])).
  reflexivity.
Defined.

(** ** More on the dispatcher and the line protocol *)

Section DispatcherMore.
Context `{Lib : Library}.
Variable auth_manager : OAuthConfig.

(** X16. A registered name is claimed by exactly one of the seven
    modules, and [_handle_call_tool] hands the call to that module and
    to no other: its answer is that module's result under [result], or,
    if the module's handler raises, an error response with code -32603
    and the exception's text. *)
Theorem call_tool_routes_to_owner request params tool_name arguments id i m w :
  dict_get request "params" (JObj []) = Ok params ->
  dict_get params "name" JNull = Ok tool_name ->
  dict_get params "arguments" (JObj []) = Ok arguments ->
  dict_get request "id" JNull = Ok id ->
  dispatch_order auth_manager !! i = Some m ->
  BaseTools.has_tool m tool_name = true ->
  (forall j m', dispatch_order auth_manager !! j = Some m' ->
                BaseTools.has_tool m' tool_name = true -> j = i)
  /\ MCPServer._handle_call_tool auth_manager request w
     = match BaseTools.handle_tool m tool_name arguments w with
       | (Ok result, w') =>
           (Ok (JObj [("jsonrpc", JStr "2.0"); ("id", id); ("result", result)]), w')
       | (Raise e, w') =>
           (Ok (JObj [ ("jsonrpc", JStr "2.0");
                       ("id", id);
                       ("error", JObj [ ("code", JNum (-32603));
                                        ("message", JStr (exn_str e)) ]) ]), w')
       end.
Proof.
  intros Hparams Hname Hargs Hid Hm Hclaims. split.
  - intros j m' Hj Hclaims'.
    exact (claimed_once auth_manager tool_name j i m' m Hj Hm Hclaims' Hclaims).
  - rewrite (call_tool_runs_owner auth_manager _ _ _ _ _ _ _ w
               Hparams Hname Hargs Hid Hm Hclaims).
    destruct (BaseTools.handle_tool m tool_name arguments w) as [[result|e] w'];
      reflexivity.
Qed.

(** What one turn of the loop does with a line that parses: the answer
    of [_handle_request], if there is one, goes out as one line; an
    exception becomes an error response with [id] null. *)
Lemma serve_parsed_line line message w :
  json_loads (str_strip line) = Ok message ->
  MCPServer.serve_line auth_manager line w
  = match MCPServer._handle_request auth_manager message w with
    | (Ok (Some response), w') =>
        if truthy response
        then (Ok tt, write_stdout (json_dumps response +:+ LF) w')
        else (Ok tt, w')
    | (Ok None, w') => (Ok tt, w')
    | (Raise e, w') =>
        (Ok tt,
         write_stdout
           (json_dumps
              (JObj [ ("jsonrpc", JStr "2.0");
                      ("id", JNull);
                      ("error",
                       match exn_type e with
                       | JSONDecodeError =>
                           JObj [ ("code", JNum (-32700));
                                  ("message", JStr ("Parse error: " +:+ exn_str e)) ]
                       | _ =>
                           JObj [ ("code", JNum (-32603));
                                  ("message", JStr ("Internal error: " +:+ exn_str e)) ]
                       end) ])
            +:+ LF) w')
    end.
Proof.
  intros Hgood.
  unfold MCPServer.serve_line, MCPServer.send, json_load. unfold_m.
  rewrite Hgood. simpl.
  destruct (MCPServer._handle_request auth_manager message w)
    as [[[response|]|e] w']; simpl; try reflexivity.
  - destruct (truthy response); reflexivity.
  - destruct (exn_type e); reflexivity.
Qed.

Lemma run_step line rest w :
  line <> "" ->
  MCPServer.run auth_manager (line :: rest) w
  = MCPServer.run auth_manager rest (snd (MCPServer.serve_line auth_manager line w)).
Proof.
  intros Hline. simpl. rewrite (eqb_empty_false _ Hline). unfold bind.
  destruct (serve_line_total auth_manager line w) as [w1 ->]. reflexivity.
Qed.

(** X17. A line that is JSON but not an object (a list, a string, a
    number, [null]) is answered like a crash: one response with [id]
    null, code -32603 and the text of the [AttributeError]; the loop
    goes on. *)
Theorem non_object_message_is_an_internal_error line rest message w :
  line <> "" ->
  json_loads (str_strip line) = Ok message ->
  (forall fields, message <> JObj fields) ->
  MCPServer.run auth_manager (line :: rest) w
  = MCPServer.run auth_manager rest
      {| fs := fs w; events := events w;
         stdout :=
           stdout w
           ++ [ json_dumps
                  (JObj [ ("jsonrpc", JStr "2.0");
                          ("id", JNull);
                          ("error",
                           JObj [ ("code", JNum (-32603));
                                  ("message",
                                   JStr ("Internal error: '" +:+ type_name message
                                         +:+ "' object has no attribute 'get'")) ]) ])
                +:+ LF ];
         now := now w; rng := rng w |}.
Proof.
  intros Hline Hgood Hshape.
  rewrite (run_step _ _ _ Hline), (serve_parsed_line _ _ _ Hgood).
  destruct message as [| | | | |fields];
    try reflexivity.
  exfalso. exact (Hshape fields eq_refl).
Qed.

(** X18. A request whose method is none of [initialize], [tools/list],
    [tools/call] and [notifications/initialized] - a missing method
    included - is answered with code -32601 and the request's id, and
    nothing else happens. *)
Theorem unknown_method_is_reported line rest fields w :
  line <> "" ->
  json_loads (str_strip line) = Ok (JObj fields) ->
  (forall s, lookup_key "method" fields = Some (JStr s) ->
             s <> "initialize" /\ s <> "tools/list" /\ s <> "tools/call"
             /\ s <> "notifications/initialized") ->
  MCPServer.run auth_manager (line :: rest) w
  = MCPServer.run auth_manager rest
      {| fs := fs w; events := events w;
         stdout :=
           stdout w
           ++ [ json_dumps
                  (JObj [ ("jsonrpc", JStr "2.0");
                          ("id", default JNull (lookup_key "id" fields));
                          ("error",
                           JObj [ ("code", JNum (-32601));
                                  ("message",
                                   JStr ("Method not found: "
                                         +:+ py_str (default JNull
                                                       (lookup_key "method" fields)))) ]) ])
                +:+ LF ];
         now := now w; rng := rng w |}.
Proof.
  intros Hline Hgood Hmethod.
  rewrite (run_step _ _ _ Hline), (serve_parsed_line _ _ _ Hgood).
  unfold MCPServer._handle_request, dict_get. unfold_m. simpl.
  unfold default, id.
  destruct (lookup_key "method" fields) as [[| | |s| |]|]; try reflexivity.
  destruct (Hmethod s eq_refl) as (H1 & H2 & H3 & H4).
  unfold MCPServer.is_method.
  rewrite (proj2 (String.eqb_neq _ _) H1), (proj2 (String.eqb_neq _ _) H2),
    (proj2 (String.eqb_neq _ _) H3), (proj2 (String.eqb_neq _ _) H4).
  reflexivity.
Qed.

(** X19. The notification [notifications/initialized] gets no answer:
    nothing is written and the loop goes on in the same state. *)
Theorem notification_gets_no_answer line rest message w :
  line <> "" ->
  json_loads (str_strip line) = Ok message ->
  dict_get message "method" JNull = Ok (JStr "notifications/initialized") ->
  MCPServer.run auth_manager (line :: rest) w = MCPServer.run auth_manager rest w.
Proof.
  intros Hline Hgood Hmethod.
  rewrite (run_step _ _ _ Hline), (serve_parsed_line _ _ _ Hgood).
  unfold MCPServer._handle_request. unfold_m. rewrite Hmethod. reflexivity.
Qed.

(** X20. A [tools/call] whose [params] is not an object fails outside
    the [try] of [_handle_call_tool]: the answer has code -32603 like
    any tool failure, but its [id] is null, not the id of the request,
    and its message starts with "Internal error". *)
Theorem call_with_non_object_params line rest message params w :
  line <> "" ->
  json_loads (str_strip line) = Ok message ->
  dict_get message "method" JNull = Ok (JStr "tools/call") ->
  dict_get message "params" (JObj []) = Ok params ->
  (forall fields, params <> JObj fields) ->
  MCPServer.run auth_manager (line :: rest) w
  = MCPServer.run auth_manager rest
      {| fs := fs w; events := events w;
         stdout :=
           stdout w
           ++ [ json_dumps
                  (JObj [ ("jsonrpc", JStr "2.0");
                          ("id", JNull);
                          ("error",
                           JObj [ ("code", JNum (-32603));
                                  ("message",
                                   JStr ("Internal error: '" +:+ type_name params
                                         +:+ "' object has no attribute 'get'")) ]) ])
                +:+ LF ];
         now := now w; rng := rng w |}.
Proof.
  intros Hline Hgood Hmethod Hparams Hshape.
  rewrite (run_step _ _ _ Hline), (serve_parsed_line _ _ _ Hgood).
  unfold MCPServer._handle_request, MCPServer._handle_call_tool. unfold_m.
  rewrite Hmethod. simpl. rewrite Hparams. simpl.
  destruct params as [| | | | |fields]; try reflexivity.
  exfalso. exact (Hshape fields eq_refl).
Qed.

(** The call on an account whose token file [json.load] rejects. *)
Lemma get_client_unparseable email service_name version w text e :
  exists_error w (AuthManager.token_file email) = None ->
  open_error w (AuthManager.token_file email) = None ->
  fs w !! path_key (AuthManager.token_file email) = Some text ->
  json_loads text = Raise e ->
  AuthManager.get_authenticated_client email service_name version w
  = (Ok None,
     write_stdout ("Failed to load tokens: " +:+ exn_str e +:+ LF)
       (log_event (EvOpenRead (AuthManager.token_file email)) w)).
Proof.
  intros Hexists Hopen Hfile Hbad.
  unfold AuthManager.get_authenticated_client, AuthManager._load_tokens, json_load.
  unfold_m. rewrite Hexists, Hfile.
  rewrite bool_decide_eq_true_2 by eauto. simpl.
  rewrite Hopen, Hfile, Hbad. reflexivity.
Qed.

(** X21. Diagnostics share the channel of the protocol.  A mail
    operation called for an account whose token file is not JSON puts
    two lines on the standard output: first the diagnostic that
    [_load_tokens] prints, which is not a JSON-RPC message, then the
    response, a result saying "Account not authenticated". *)
Theorem diagnostics_precede_the_response line message params tool_name arguments id
        email text e w :
  json_loads (str_strip line) = Ok message ->
  dict_get message "method" JNull = Ok (JStr "tools/call") ->
  dict_get message "params" (JObj []) = Ok params ->
  dict_get params "name" JNull = Ok tool_name ->
  dict_get params "arguments" (JObj []) = Ok arguments ->
  dict_get message "id" JNull = Ok id ->
  BaseTools.has_tool MCPServer.gmail_tools tool_name = true ->
  dict_get arguments "email" JNull = Ok email ->
  truthy email = true ->
  exists_error w (AuthManager.token_file (py_str email)) = None ->
  open_error w (AuthManager.token_file (py_str email)) = None ->
  fs w !! path_key (AuthManager.token_file (py_str email)) = Some text ->
  json_loads text = Raise e ->
  MCPServer.serve_line auth_manager line w
  = (Ok tt,
     {| fs := fs w;
        events := events w ++ [EvOpenRead (AuthManager.token_file (py_str email))];
        stdout :=
          stdout w
          ++ [ "Failed to load tokens: " +:+ exn_str e +:+ LF;
               json_dumps
                 (JObj [ ("jsonrpc", JStr "2.0");
                         ("id", id);
                         ("result",
                          JObj [("content",
                                 JArr [JObj [ ("type", JStr "text");
                                              ("text",
                                               JStr "Error: Account not authenticated") ]])]) ])
               +:+ LF ];
        now := now w; rng := rng w |}).
Proof.
  intros Hgood Hmethod Hparams Hname Hargs Hid Hclaims Hemail Htruthy
         Hexists Hopen Hfile Hbad.
  rewrite (serve_parsed_line _ _ _ Hgood).
  unfold MCPServer._handle_request. unfold bind at 1. unfold lift at 1.
  rewrite Hmethod. simpl. unfold bind at 1.
  assert (Hpos : dispatch_order auth_manager !! 1%nat = Some MCPServer.gmail_tools)
    by reflexivity.
  rewrite (call_tool_runs_owner auth_manager _ _ _ _ _ _ _ w
             Hparams Hname Hargs Hid Hpos Hclaims).
  simpl. unfold GmailTools.handle_tool. unfold_m. rewrite Hemail, Htruthy. simpl.
  rewrite (get_client_unparseable _ _ _ _ _ _ Hexists Hopen Hfile Hbad). simpl.
  unfold write_stdout, log_event. simpl. rewrite <- app_assoc. reflexivity.
Qed.

End DispatcherMore.

Lemma call_tool_routes_to_owner_witness :
  MCPServer._handle_call_tool (Lib := Sample.library) Sample.config
    (Sample.call "get_sheet_values" (JObj []))
    (Sample.world_with (Sample.record JNull))
  = (Ok (JObj [ ("jsonrpc", JStr "2.0");
                ("id", JNum 7);
                ("result", text_result "Error: Email is required") ]),
     Sample.world_with (Sample.record JNull)).
Proof.
  apply (call_tool_routes_to_owner (Lib := Sample.library) Sample.config
           (Sample.call "get_sheet_values" (JObj []))
           (JObj [("name", JStr "get_sheet_values"); ("arguments", JObj [])])
           (JStr "get_sheet_values") (JObj []) (JNum 7) 6%nat
           (SheetsTools.tools (Lib := Sample.library))
           (Sample.world_with (Sample.record JNull)));
    reflexivity.
Defined.

Lemma non_object_message_is_an_internal_error_witness :
  MCPServer.run (Lib := Sample.library) Sample.config
    ["[1, 2]" +:+ LF] (Sample.world [])
  = (Ok tt,
     {| fs := fs (Sample.world []); events := [];
        stdout :=
          [ Sample.dumps
              (JObj [ ("jsonrpc", JStr "2.0");
                      ("id", JNull);
                      ("error",
                       JObj [ ("code", JNum (-32603));
                              ("message",
                               JStr "Internal error: 'list' object has no attribute 'get'") ]) ])
            +:+ LF ];
        now := now (Sample.world []); rng := rng (Sample.world []) |}).
Proof.
  apply (non_object_message_is_an_internal_error (Lib := Sample.library) Sample.config
           ("[1, 2]" +:+ LF) [] (JArr [JNum 1; JNum 2]) (Sample.world [])).
  - discriminate.
  - vm_compute. reflexivity.
  - discriminate.
Defined.

(** A line wrapped in no-break spaces is stripped like any other: the
    empty object inside has no method. *)
Lemma unknown_method_is_reported_witness :
  MCPServer.run (Lib := Sample.library) Sample.config
    [Sample.utf8 [194; 160] +:+ "{}" +:+ Sample.utf8 [194; 160] +:+ LF]
    (Sample.world [])
  = (Ok tt,
     {| fs := fs (Sample.world []); events := [];
        stdout :=
          [ Sample.dumps
              (JObj [ ("jsonrpc", JStr "2.0");
                      ("id", JNull);
                      ("error",
                       JObj [ ("code", JNum (-32601));
                              ("message", JStr "Method not found: None") ]) ])
            +:+ LF ];
        now := now (Sample.world []); rng := rng (Sample.world []) |}).
Proof.
  apply (unknown_method_is_reported (Lib := Sample.library) Sample.config
           (Sample.utf8 [194; 160] +:+ "{}" +:+ Sample.utf8 [194; 160] +:+ LF)
           [] [] (Sample.world [])).
  - vm_compute. discriminate.
  - vm_compute. reflexivity.
  - intros s Hs. discriminate Hs.
Defined.

Lemma notification_gets_no_answer_witness :
  MCPServer.run (Lib := Sample.library) Sample.config
    [ Sample.dumps (JObj [ ("jsonrpc", JStr "2.0");
                           ("method", JStr "notifications/initialized") ]) +:+ LF ]
    (Sample.world [])
  = (Ok tt, Sample.world []).
Proof.
  apply (notification_gets_no_answer (Lib := Sample.library) Sample.config
           (Sample.dumps (JObj [ ("jsonrpc", JStr "2.0");
                                 ("method", JStr "notifications/initialized") ])
            +:+ LF)
           []
           (JObj [("jsonrpc", JStr "2.0"); ("method", JStr "notifications/initialized")])
           (Sample.world [])).
  - vm_compute. discriminate.
  - vm_compute. reflexivity.
  - reflexivity.
Defined.

Lemma call_with_non_object_params_witness :
  MCPServer.run (Lib := Sample.library) Sample.config
    [ Sample.dumps (JObj [ ("jsonrpc", JStr "2.0"); ("id", JNum 7);
                           ("method", JStr "tools/call");
                           ("params", JArr []) ]) +:+ LF ]
    (Sample.world [])
  = (Ok tt,
     {| fs := fs (Sample.world []); events := [];
        stdout :=
          [ Sample.dumps
              (JObj [ ("jsonrpc", JStr "2.0");
                      ("id", JNull);
                      ("error",
                       JObj [ ("code", JNum (-32603));
                              ("message",
                               JStr "Internal error: 'list' object has no attribute 'get'") ]) ])
            +:+ LF ];
        now := now (Sample.world []); rng := rng (Sample.world []) |}).
Proof.
  apply (call_with_non_object_params (Lib := Sample.library) Sample.config
           (Sample.dumps (JObj [ ("jsonrpc", JStr "2.0"); ("id", JNum 7);
                                 ("method", JStr "tools/call");
                                 ("params", JArr []) ]) +:+ LF)
           []
           (JObj [ ("jsonrpc", JStr "2.0"); ("id", JNum 7);
                   ("method", JStr "tools/call"); ("params", JArr []) ])
           (JArr []) (Sample.world [])).
  - vm_compute. discriminate.
  - vm_compute. reflexivity.
  - reflexivity.
  - reflexivity.
  - discriminate.
Defined.

Lemma diagnostics_precede_the_response_witness :
  stdout
    (snd (MCPServer.serve_line (Lib := Sample.library) Sample.config
            (Sample.dumps
               (Sample.call "search_workspace_emails"
                  (JObj [("email", JStr "a@x.com")])) +:+ LF)
            (Sample.world [("a@x.com.json", "not json")])))
  = [ "Failed to load tokens: Expecting value" +:+ LF;
      Sample.dumps
        (JObj [ ("jsonrpc", JStr "2.0");
                ("id", JNum 7);
                ("result", text_result "Error: Account not authenticated") ])
      +:+ LF ].
Proof.
  rewrite (diagnostics_precede_the_response (Lib := Sample.library) Sample.config
             (Sample.dumps
                (Sample.call "search_workspace_emails"
                   (JObj [("email", JStr "a@x.com")])) +:+ LF)
             (Sample.call "search_workspace_emails" (JObj [("email", JStr "a@x.com")]))
             (JObj [ ("name", JStr "search_workspace_emails");
                     ("arguments", JObj [("email", JStr "a@x.com")]) ])
             (JStr "search_workspace_emails")
             (JObj [("email", JStr "a@x.com")])
             (JNum 7) (JStr "a@x.com") "not json"
             (Exn JSONDecodeError "Expecting value")
             (Sample.world [("a@x.com.json", "not json")])).
  - reflexivity.
  - vm_compute. reflexivity.
  - reflexivity.
  - reflexivity.
  - reflexivity.
  - reflexivity.
  - reflexivity.
  - reflexivity.
  - reflexivity.
  - reflexivity.
  - vm_compute. reflexivity.
  - vm_compute. reflexivity.
  - vm_compute. reflexivity.
  - vm_compute. reflexivity.
Defined.


(** ** The HTTP endpoints and [clear_tokens.py] *)

Section Endpoints.
Context `{Lib : Library}.
Variable auth_manager : OAuthConfig.

(** X23. [DELETE /api/accounts/<email>] never answers 500.  For an
    account that has no token file it answers 200 "Successfully
    removed" and changes nothing; when the look-up of the file fails it
    answers 400 with a fixed text, the cause going to the standard
    output only. *)
Theorem http_remove_account_status email w :
  (exists body status w',
      AccountRoutes.remove_account email w = (Ok (body, status), w')
      /\ (status = 200 \/ status = 400)%Z)
  /\ (exists_error w (AuthManager.token_file email) = None ->
      fs w !! path_key (AuthManager.token_file email) = None ->
      AccountRoutes.remove_account email w
      = (Ok (JObj [("message", JStr ("Successfully removed account: " +:+ email))],
             200%Z), w))
  /\ (forall e,
         exists_error w (AuthManager.token_file email) = Some e ->
         AccountRoutes.remove_account email w
         = (Ok (JObj [("error", JStr "Failed to remove account")], 400%Z),
            {| fs := fs w; events := events w;
               stdout := stdout w ++ ["Failed to remove account: " +:+ exn_str e +:+ LF];
               now := now w; rng := rng w |})).
Proof.
  split; [|split].
  - unfold AccountRoutes.remove_account, AuthManager.remove_account. unfold_m.
    repeat (break_match; simpl in *; simplify_eq); eauto 6.
  - intros Hexists Hnone.
    unfold AccountRoutes.remove_account, AuthManager.remove_account. unfold_m.
    rewrite Hexists, Hnone.
    rewrite bool_decide_eq_false_2 by (intros [x Hx]; discriminate). reflexivity.
  - intros e Hexists.
    unfold AccountRoutes.remove_account, AuthManager.remove_account. unfold_m.
    rewrite Hexists. reflexivity.
Qed.

(** X24. [GET /oauth/callback] asks for a code and a state but only
    for their presence: without one of them it answers 400 and does
    nothing; with both, the answer and everything the call does are
    the same for any two non-empty states.  A code the token endpoint
    turns down gives 400 with the library's text. *)
Theorem oauth_callback_requires_code_and_state code state w :
  (App.missing code = true \/ App.missing state = true ->
   App.oauth_callback auth_manager code state w
   = (Ok (App.Json (JObj [("error", JStr "Missing authorization code or state")]),
          400%Z), w))
  /\ (forall c s1 s2,
         c <> "" -> s1 <> "" -> s2 <> "" ->
         App.oauth_callback auth_manager (Some c) (Some s1) w
         = App.oauth_callback auth_manager (Some c) (Some s2) w)
  /\ (forall c s e,
         c <> "" -> s <> "" ->
         fetch_token (events w) auth_manager AuthManager.scopes c = Raise e ->
         App.oauth_callback auth_manager (Some c) (Some s) w
         = (Ok (App.Json (JObj [("error",
                                 JStr ("Authentication failed: " +:+ exn_str e))]),
                400%Z),
            {| fs := fs w; events := events w ++ [EvFetchToken c];
               stdout := stdout w; now := now w; rng := rng w |})).
Proof.
  split; [|split].
  - intros Hmissing. unfold App.oauth_callback. unfold_m.
    destruct code as [c|], state as [s|]; try reflexivity.
    destruct Hmissing as [Hm | Hm]; rewrite Hm; rewrite ?orb_true_r; reflexivity.
  - intros c s1 s2 Hc Hs1 Hs2. unfold App.oauth_callback, App.missing.
    rewrite (eqb_empty_false _ Hs1), (eqb_empty_false _ Hs2). reflexivity.
  - intros c s e Hc Hs Hfetch. unfold App.oauth_callback, App.missing.
    rewrite (eqb_empty_false _ Hc), (eqb_empty_false _ Hs).
    unfold AuthManager.handle_oauth_callback, AuthManager.do_fetch_token.
    unfold_m. simpl. rewrite Hfetch. reflexivity.
Qed.




End Endpoints.

Lemma http_remove_account_status_witness :
  AccountRoutes.remove_account (Lib := Sample.library) "nobody@x.com"
    (Sample.world_with (Sample.record JNull))
  = (Ok (JObj [("message", JStr "Successfully removed account: nobody@x.com")], 200%Z),
     Sample.world_with (Sample.record JNull)).
Proof.
  apply (proj1 (proj2 (http_remove_account_status (Lib := Sample.library)
                         "nobody@x.com" (Sample.world_with (Sample.record JNull))))).
  - vm_compute. reflexivity.
  - vm_compute. reflexivity.
Defined.

Lemma oauth_callback_requires_code_and_state_witness :
  App.oauth_callback (Lib := Sample.library) Sample.config (Some "c0de") None
    (Sample.world [])
  = (Ok (App.Json (JObj [("error", JStr "Missing authorization code or state")]),
         400%Z), Sample.world []).
Proof.
  apply (proj1 (oauth_callback_requires_code_and_state (Lib := Sample.library)
                  Sample.config (Some "c0de") None (Sample.world []))).
  right. reflexivity.
Defined.

